(** * Fixed-window rate limiter with temporary blocks

    A shallow embedding of the decision engine of the rate limiter
    ([ratelimiter/limiter.go]) and of its in-memory client store
    ([storage], [MemoryStorage]), with the properties of the engine's
    state machine proved over it.

    Conventions of the embedding:
    - Go's [int] and [time.Duration] are 64-bit signed integers; they are
      carried in [Z] and the one arithmetic operation the code performs on a
      counter ([RequestCount++]) wraps around explicitly ([int_wrap]).
    - A [time.Time] is an instant on one time line, carried in [Z] as the
      number of nanoseconds since Go's zero instant (January 1 of year 1,
      UTC), so that [IsZero] is a comparison with [0].
    - [time.Now()] is an input: every clock reading a function takes is an
      explicit argument, in the order in which the code reads the clock.
    - [Duration.Seconds] computes in [float64]; it is embedded with the
      binary64 operations of [SpecFloat].
    - The store is explicit state: an operation takes the map and returns
      the new map next to its Go results.  The limiter is taken with
      [MemoryStorage], the implementation of its [Storage] interface that
      [New] installs.  [CheckAndIncrement] holds the mutex from entry to
      return, so concurrent calls of the current [Allow] take effect on the
      store one after the other, in some order; the runs below are such
      sequences, with clock readings in any order.  The logger calls of [Allow] have no
      effect on results or stored state and are left out. *)

From Stdlib Require Import ZArith Bool List Lia.
From Stdlib Require Import Floats.SpecFloat.
From stdpp Require Import base option gmap strings.

Local Open Scope Z_scope.

(* ------------------------------------------------------------------ *)
(** ** Machine integers *)

Definition int_bits : Z := 64.
Definition max_int : Z := 2 ^ (int_bits - 1) - 1.
Definition min_int : Z := - 2 ^ (int_bits - 1).

(** Two's complement wrap-around of a 64-bit signed integer. *)
Definition int_wrap (z : Z) : Z :=
  (z + 2 ^ (int_bits - 1)) mod 2 ^ int_bits - 2 ^ (int_bits - 1).

Definition int_range (z : Z) : Prop := min_int <= z <= max_int.

(* ------------------------------------------------------------------ *)
(** ** package time *)

Definition Duration : Type := Z.
Definition Time : Type := Z.

Definition Nanosecond : Duration := 1.
Definition Millisecond : Duration := 1000000.
Definition Second : Duration := 1000000000.
Definition Minute : Duration := 60 * Second.

Definition minDuration : Duration := min_int.
Definition maxDuration : Duration := max_int.

(** [time.Time{}] *)
Definition Time_zero : Time := 0.

Definition Time_IsZero (t : Time) : bool := t =? 0.
Definition Time_Before (t u : Time) : bool := t <? u.
Definition Time_After (t u : Time) : bool := u <? t.
Definition Time_Add (t : Time) (d : Duration) : Time := t + d.

(** [t.Sub(u)]: the difference [t - u], saturated to the range of
    [Duration]. *)
Definition Time_Sub (t u : Time) : Duration :=
  let d := t - u in
  if maxDuration <? d then maxDuration
  else if d <? minDuration then minDuration
  else d.

(** [time.Until(t)], where [clock] is the reading [time.Until] takes. *)
Definition time_Until (clock : Time) (t : Time) : Duration := Time_Sub t clock.

(** *** float64 *)

Definition float64 : Type := spec_float.
Definition f64_prec : Z := 53.
Definition f64_emax : Z := 1024.

(** [float64(z)] for an integer [z]: the nearest binary64, ties to even. *)
Definition float64_of_int (z : Z) : float64 :=
  binary_normalize f64_prec f64_emax z 0 false.

Definition f64_add : float64 -> float64 -> float64 := SFadd f64_prec f64_emax.
Definition f64_div : float64 -> float64 -> float64 := SFdiv f64_prec f64_emax.

(** [int(f)]: conversion to integer, the fraction discarded (truncation
    towards zero).  The durations of this program give finite values far
    inside the range of [int]; for NaN and the infinities, where Go leaves
    the result to the implementation, the value of amd64 is taken. *)
Definition int_of_float64 (f : float64) : Z :=
  match f with
  | S754_zero _ => 0
  | S754_finite sgn m e =>
      let a := if 0 <=? e then Z.pos m * 2 ^ e else Z.pos m / 2 ^ (- e) in
      int_wrap (if sgn then - a else a)
  | S754_infinity _ | S754_nan => min_int
  end.

(** [d.Seconds()]:
    [sec := d / Second; nsec := d % Second;
     return float64(sec) + float64(nsec)/1e9] *)
Definition Duration_Seconds (d : Duration) : float64 :=
  let sec := Z.quot d Second in
  let nsec := Z.rem d Second in
  f64_add (float64_of_int sec)
          (f64_div (float64_of_int nsec) (float64_of_int 1000000000)).

(** [int(d.Seconds())], the expression both denial paths of [Allow] use. *)
Definition whole_seconds (d : Duration) : Z := int_of_float64 (Duration_Seconds d).

(* ------------------------------------------------------------------ *)
(** ** package storage *)

Record ClientData : Type := mkClientData {
  RequestCount : Z;
  WindowStart : Time;
  BlockedUntil : Time
}.

#[global] Instance ClientData_eq_dec : EqDecision ClientData.
Proof. solve_decision. Defined.

(** [MemoryStorage.clients : map[string]*ClientData].  The map owns the
    records it points to; an update in place through such a pointer is an
    update of the map's entry. *)
Abbreviation MemoryStorage := (gmap string ClientData).

Definition NewMemoryStorage : MemoryStorage := ∅.

Definition GetClientData (s : MemoryStorage) (clientID : string)
  : option ClientData := s !! clientID.

Definition SetClientData (s : MemoryStorage) (clientID : string)
  (data : ClientData) : MemoryStorage :=
  <[clientID := mkClientData (RequestCount data) (WindowStart data)
                             (BlockedUntil data)]> s.

(** [clock] is the reading of [time.Now()] taken for a client not yet
    stored. *)
Definition IncrementRequestCount (s : MemoryStorage) (clientID : string)
  (clock : Time) : MemoryStorage * Z :=
  match s !! clientID with
  | Some data =>
      let c := int_wrap (RequestCount data + 1) in
      (<[clientID := mkClientData c (WindowStart data) (BlockedUntil data)]> s,
       c)
  | None =>
      (<[clientID := mkClientData 1 clock Time_zero]> s, 1)
  end.

Definition ResetWindow (s : MemoryStorage) (clientID : string)
  (windowStart : Time) : MemoryStorage :=
  <[clientID := mkClientData 1 windowStart Time_zero]> s.

Definition BlockClient (s : MemoryStorage) (clientID : string)
  (blockedUntil : Time) : MemoryStorage :=
  match s !! clientID with
  | Some data =>
      <[clientID := mkClientData (RequestCount data) (WindowStart data)
                                 blockedUntil]> s
  | None => s
  end.

Definition DeleteClient (s : MemoryStorage) (clientID : string)
  : MemoryStorage := delete clientID s.

Definition Clear (_ : MemoryStorage) : MemoryStorage := ∅.

(** The compound operation.  The result is the new store, the record
    returned and the flag returned.  The three guards that start with
    [exists &&] are the three tests of the [Some] branch, in the order of
    the source; with no record stored they all fail and the [!exists]
    block runs.  The blocked branch and the counting branch return a copy
    of the record, the other branches the stored record itself; the caller
    only reads what it gets, so the record is returned by value. *)
Definition CheckAndIncrement (s : MemoryStorage) (clientID : string)
  (now : Time) (windowDuration : Duration) (maxRequests : Z)
  (blockDuration : Duration) : MemoryStorage * (ClientData * bool) :=
  match s !! clientID with
  | Some data =>
      if negb (Time_IsZero (BlockedUntil data))
         && Time_Before now (BlockedUntil data)
      then
        (s, (mkClientData (RequestCount data) (WindowStart data)
                          (BlockedUntil data), false))
      else if negb (Time_IsZero (BlockedUntil data))
              && Time_After now (BlockedUntil data)
      then
        let fresh := mkClientData 1 now Time_zero in
        (<[clientID := fresh]> s, (fresh, true))
      else if windowDuration <=? Time_Sub now (WindowStart data)
      then
        let fresh := mkClientData 1 now Time_zero in
        (<[clientID := fresh]> s, (fresh, true))
      else
        let c := int_wrap (RequestCount data + 1) in
        let bu := if maxRequests <? c then Time_Add now blockDuration
                  else BlockedUntil data in
        let data' := mkClientData c (WindowStart data) bu in
        (<[clientID := data']> s, (data', true))
  | None =>
      let fresh := mkClientData 1 now Time_zero in
      (<[clientID := fresh]> s, (fresh, true))
  end.

(* ------------------------------------------------------------------ *)
(** ** package ratelimiter *)

Record RateLimiter : Type := mkRateLimiter {
  maxRequests : Z;
  windowDuration : Duration;
  blockDuration : Duration;
  errorMessage : string;
  includeJSON : bool;
  logOnExceedOnly : bool
}.

(** [New()] without options; the store it creates is [NewMemoryStorage]. *)
Definition New : RateLimiter :=
  mkRateLimiter 100 Minute Minute "Rate limit exceeded" true true.

Definition WithMaxRequests (max : Z) (rl : RateLimiter) : RateLimiter :=
  mkRateLimiter max (windowDuration rl) (blockDuration rl) (errorMessage rl)
                (includeJSON rl) (logOnExceedOnly rl).

Definition WithWindowDuration (d : Duration) (rl : RateLimiter) : RateLimiter :=
  mkRateLimiter (maxRequests rl) d (blockDuration rl) (errorMessage rl)
                (includeJSON rl) (logOnExceedOnly rl).

Definition WithBlockDuration (d : Duration) (rl : RateLimiter) : RateLimiter :=
  mkRateLimiter (maxRequests rl) (windowDuration rl) d (errorMessage rl)
                (includeJSON rl) (logOnExceedOnly rl).

Record Result : Type := mkResult {
  Allowed : bool;
  RequestsMade : Z;
  Limit : Z;
  RetryAfter : Time;
  RetryAfterSec : Z;
  ErrorMessage : string
}.

#[global] Instance Result_eq_dec : EqDecision Result.
Proof. solve_decision. Defined.

(** The result of an accepted request: the fields the code does not set
    have Go's zero values. *)
Definition allowed_result (rl : RateLimiter) (requestCount : Z) : Result :=
  mkResult true requestCount (maxRequests rl) Time_zero 0 "".

(** [rl.Allow(clientID)], the current variant.  [now] is the reading of
    [time.Now()] at entry, [later] the reading [time.Until] takes on the
    blocked path. *)
Definition Allow (rl : RateLimiter) (s : MemoryStorage) (clientID : string)
  (now later : Time) : MemoryStorage * Result :=
  let '(s', (data, allowed)) :=
    CheckAndIncrement s clientID now (windowDuration rl) (maxRequests rl)
                      (blockDuration rl) in
  if negb allowed then
    let retryAfterSec := whole_seconds (time_Until later (BlockedUntil data)) in
    let retryAfterSec := if retryAfterSec <? 1 then 1 else retryAfterSec in
    (s', mkResult false (RequestCount data) (maxRequests rl)
                  (BlockedUntil data) retryAfterSec (errorMessage rl))
  else if maxRequests rl <? RequestCount data then
    let retryAfterSec := whole_seconds (blockDuration rl) in
    (s', mkResult false (RequestCount data) (maxRequests rl)
                  (BlockedUntil data) retryAfterSec (errorMessage rl))
  else
    (s', allowed_result rl (RequestCount data)).

(** The earlier variant of [Allow], which reads the record with
    [GetClientData] and then updates the store through separate calls.
    [clock] is the reading [IncrementRequestCount] would take for a client
    that is not stored. *)
Module Earlier.

(** The part of [Allow] after the two window tests: [exists] is the flag
    as those tests left it. *)
Definition count_and_decide (rl : RateLimiter) (s : MemoryStorage)
  (clientID : string) (now clock : Time) (exists_ : bool)
  : MemoryStorage * Result :=
  let '(s1, requestCount) :=
    if negb exists_ then
      (SetClientData s clientID (mkClientData 1 now Time_zero), 1)
    else IncrementRequestCount s clientID clock in
  if maxRequests rl <? requestCount then
    let blockedUntil := Time_Add now (blockDuration rl) in
    let s2 := BlockClient s1 clientID blockedUntil in
    let retryAfterSec := whole_seconds (blockDuration rl) in
    (s2, mkResult false requestCount (maxRequests rl) blockedUntil
                  retryAfterSec (errorMessage rl))
  else
    (s1, allowed_result rl requestCount).

Definition Allow (rl : RateLimiter) (s : MemoryStorage) (clientID : string)
  (now later clock : Time) : MemoryStorage * Result :=
  match GetClientData s clientID with
  | Some data =>
      if negb (Time_IsZero (BlockedUntil data))
         && Time_Before now (BlockedUntil data)
      then
        let retryAfterSec :=
          whole_seconds (time_Until later (BlockedUntil data)) in
        let retryAfterSec := if retryAfterSec <? 1 then 1 else retryAfterSec in
        (s, mkResult false (RequestCount data) (maxRequests rl)
                     (BlockedUntil data) retryAfterSec (errorMessage rl))
      else
        let '(s1, exists_b) :=
          if negb (Time_IsZero (BlockedUntil data))
             && Time_After now (BlockedUntil data)
          then (ResetWindow s clientID now, false)
          else (s, true) in
        let '(s2, exists_w) :=
          if exists_b && (windowDuration rl <=? Time_Sub now (WindowStart data))
          then (ResetWindow s1 clientID now, false)
          else (s1, exists_b) in
        count_and_decide rl s2 clientID now clock exists_w
  | None => count_and_decide rl s clientID now clock false
  end.

End Earlier.

(* ------------------------------------------------------------------ *)
(** ** Sequential runs *)

(** One call of [Allow]: the client and the clock readings it meets. *)
Record Call : Type := mkCall {
  call_client : string;
  call_now : Time;
  call_later : Time;
  call_clock : Time
}.

(** The calls served one after the other on the same store; the results
    in the order of the calls. *)
Fixpoint serve (rl : RateLimiter) (s : MemoryStorage) (calls : list Call)
  : MemoryStorage * list Result :=
  match calls with
  | [] => (s, [])
  | c :: rest =>
      let '(s1, r) := Allow rl s (call_client c) (call_now c) (call_later c) in
      let '(s2, rs) := serve rl s1 rest in
      (s2, r :: rs)
  end.

Fixpoint serve_earlier (rl : RateLimiter) (s : MemoryStorage)
  (calls : list Call) : MemoryStorage * list Result :=
  match calls with
  | [] => (s, [])
  | c :: rest =>
      let '(s1, r) := Earlier.Allow rl s (call_client c) (call_now c)
                                    (call_later c) (call_clock c) in
      let '(s2, rs) := serve_earlier rl s1 rest in
      (s2, r :: rs)
  end.

Definition count_allowed (rs : list Result) : nat :=
  length (filter (fun r => Allowed r = true) rs).

Definition count_denied (rs : list Result) : nat :=
  length (filter (fun r => Allowed r = false) rs).

Definition limiter (max : Z) (window block : Duration) : RateLimiter :=
  WithBlockDuration block (WithWindowDuration window (WithMaxRequests max New)).

(* ------------------------------------------------------------------ *)
(** ** Predicates on records, stores and runs *)

(** Neither block test of [CheckAndIncrement] fires when no block is
    recorded, and also at the very instant [BlockedUntil]: [Before] and
    [After] are both strict. *)
Definition no_block_test_fires (now : Time) (d : ClientData) : Prop :=
  BlockedUntil d = Time_zero \/ now = BlockedUntil d.

(** Every stored count lies between 0 and [n]. *)
Definition counts_within (n : Z) (s : MemoryStorage) : Prop :=
  forall (k : string) (d : ClientData),
    s !! k = Some d -> 0 <= RequestCount d <= n.

(** All calls are calls of client [k]. *)
Definition on_client (k : string) (calls : list Call) : Prop :=
  Forall (fun c => call_client c = k) calls.

(** The clock readings lie after Go's zero instant. *)
Definition clock_after_zero (calls : list Call) : Prop :=
  Forall (fun c => Time_zero < call_now c) calls.

(** Every call after the first falls in the window the first call opens. *)
Definition within_one_window (rl : RateLimiter) (calls : list Call) : Prop :=
  match calls with
  | [] => True
  | c0 :: rest =>
      Forall (fun c => Time_Sub (call_now c) (call_now c0) < windowDuration rl)
             rest
  end.

(** The block set by the call that exceeds the limit (the call of index
    [maxRequests], counting from 0) outlasts every later call. *)
Definition no_block_expires (rl : RateLimiter) (calls : list Call) : Prop :=
  forall cb : Call,
    calls !! Z.to_nat (maxRequests rl) = Some cb ->
    Forall (fun c => call_now c < Time_Add (call_now cb) (blockDuration rl))
           (drop (S (Z.to_nat (maxRequests rl))) calls).

(* ------------------------------------------------------------------ *)
(** ** Repeated store operations, results per client, reachable stores *)

(** [IncrementRequestCount] called once for every clock reading of the
    list; the counts returned, in the order of the calls. *)
Fixpoint increments (s : MemoryStorage) (clientID : string)
  (clocks : list Time) : MemoryStorage * list Z :=
  match clocks with
  | [] => (s, [])
  | clock :: rest =>
      let '(s1, n) := IncrementRequestCount s clientID clock in
      let '(s2, ns) := increments s1 clientID rest in
      (s2, n :: ns)
  end.

(** The calls of a run that are calls of client [k]. *)
Definition calls_of (k : string) (calls : list Call) : list Call :=
  filter (fun c => call_client c = k) calls.

(** The results of a run that answer the calls of client [k]. *)
Definition results_for (k : string) (calls : list Call) (rs : list Result)
  : list Result :=
  (filter (fun p => call_client (fst p) = k) (zip calls rs)).*2.

(** The record holds a block that lasts beyond [now]. *)
Definition blocked_at (now : Time) (d : ClientData) : Prop :=
  BlockedUntil d <> Time_zero /\ now < BlockedUntil d.

(** What holds of the records of a store after at most [n] calls: the
    count is positive and at most [n], and a block is recorded only with a
    count above the limit. *)
Definition record_ok (rl : RateLimiter) (n : Z) (d : ClientData) : Prop :=
  1 <= RequestCount d <= n /\
  (BlockedUntil d <> Time_zero -> maxRequests rl < RequestCount d).

Definition store_ok (rl : RateLimiter) (n : Z) (s : MemoryStorage) : Prop :=
  forall (k : string) (d : ClientData), s !! k = Some d -> record_ok rl n d.

(* ------------------------------------------------------------------ *)
(** ** Sample inputs *)

(** A clock reading of the present time, some 2025 years after the zero
    instant. *)
Definition t0 : Time := 63900000000 * Second.

Definition client : string := "client".

(** One request counted at [t0], no block. *)
Definition store_one : MemoryStorage := {[ client := mkClientData 1 t0 Time_zero ]}.

(** Two requests counted at [t0], blocked for [block] from [t0]. *)
Definition store_blocked (block : Duration) : MemoryStorage :=
  {[ client := mkClientData 2 t0 (Time_Add t0 block) ]}.

(* ------------------------------------------------------------------ *)
(** ** Arithmetic of the embedding *)

Lemma int_wrap_id (z : Z) : int_range z -> int_wrap z = z.
Proof.
  unfold int_range, int_wrap, min_int, max_int, int_bits. simpl. intros Hz.
  rewrite Z.mod_small; lia.
Qed.

Lemma int_wrap_succ (c : Z) : min_int <= c < max_int -> int_wrap (c + 1) = c + 1.
Proof. intros Hc. apply int_wrap_id. unfold int_range. lia. Qed.

Lemma int_wrap_max : int_wrap (max_int + 1) = min_int.
Proof. reflexivity. Qed.

Lemma Time_Sub_exact (t u : Time) :
  minDuration <= t - u <= maxDuration -> Time_Sub t u = t - u.
Proof.
  intros H. unfold Time_Sub.
  destruct (Z.ltb_spec maxDuration (t - u)); [lia|].
  destruct (Z.ltb_spec (t - u) minDuration); [lia|]. reflexivity.
Qed.

(** Saturation does not disturb the window test for an elapsed window. *)
Lemma Time_Sub_ge (now ws : Time) (wd : Duration) :
  wd <= maxDuration -> wd <= now - ws -> wd <= Time_Sub now ws.
Proof.
  intros Hwd H. unfold Time_Sub.
  destruct (Z.ltb_spec maxDuration (now - ws)); [lia|].
  destruct (Z.ltb_spec (now - ws) minDuration); lia.
Qed.

Lemma Time_Sub_lt (now ws : Time) (wd : Duration) :
  minDuration < wd -> now - ws < wd -> Time_Sub now ws < wd.
Proof.
  intros Hwd H. unfold Time_Sub.
  destruct (Z.ltb_spec maxDuration (now - ws)); [lia|].
  destruct (Z.ltb_spec (now - ws) minDuration); lia.
Qed.

(** [int(d.Seconds())] on samples.  It is the truncation of [d / Second]
    on the durations a limiter is configured with; from [2^24] seconds on,
    the binary64 sum of the seconds and of a fraction next to 1 rounds up to
    the next integer. *)
Example whole_seconds_samples :
  whole_seconds Minute = 60 /\
  whole_seconds (500 * Millisecond) = 0 /\
  whole_seconds (1999 * Millisecond) = 1 /\
  whole_seconds (- 1500 * Millisecond) = -1 /\
  whole_seconds (2 ^ 24 * Second + 999999999) = 2 ^ 24 + 1.
Proof. vm_compute. repeat split; reflexivity. Qed.

(* ------------------------------------------------------------------ *)
(** ** The branches of [CheckAndIncrement] *)

(** Decides the comparisons of a goal from the hypotheses. *)
Ltac decide_tests :=
  unfold Time_IsZero, Time_Before, Time_After, Time_zero in *;
  repeat match goal with
  | |- context [?a <? ?b] => destruct (Z.ltb_spec a b); try lia
  | |- context [?a <=? ?b] => destruct (Z.leb_spec a b); try lia
  | |- context [?a =? ?b] => destruct (Z.eqb_spec a b); try lia
  end; simpl.

Section Branches.
Variables (s : MemoryStorage) (clientID : string) (now : Time).
Variables (wd : Duration) (mx : Z) (bd : Duration).

Lemma CheckAndIncrement_fresh :
  s !! clientID = None ->
  CheckAndIncrement s clientID now wd mx bd =
    (<[clientID := mkClientData 1 now Time_zero]> s,
     (mkClientData 1 now Time_zero, true)).
Proof. intros H. unfold CheckAndIncrement. rewrite H. reflexivity. Qed.

Lemma CheckAndIncrement_blocked (d : ClientData) :
  s !! clientID = Some d ->
  BlockedUntil d <> Time_zero -> now < BlockedUntil d ->
  CheckAndIncrement s clientID now wd mx bd = (s, (d, false)).
Proof.
  intros H Hnz Hlt. unfold CheckAndIncrement. rewrite H.
  destruct d as [c ws bu]; simpl in *. decide_tests; reflexivity.
Qed.

Lemma CheckAndIncrement_expired (d : ClientData) :
  s !! clientID = Some d ->
  BlockedUntil d <> Time_zero -> BlockedUntil d < now ->
  CheckAndIncrement s clientID now wd mx bd =
    (<[clientID := mkClientData 1 now Time_zero]> s,
     (mkClientData 1 now Time_zero, true)).
Proof.
  intros H Hnz Hlt. unfold CheckAndIncrement. rewrite H.
  destruct d as [c ws bu]; simpl in *. decide_tests; reflexivity.
Qed.

Lemma CheckAndIncrement_window (d : ClientData) :
  s !! clientID = Some d ->
  no_block_test_fires now d ->
  wd <= Time_Sub now (WindowStart d) ->
  CheckAndIncrement s clientID now wd mx bd =
    (<[clientID := mkClientData 1 now Time_zero]> s,
     (mkClientData 1 now Time_zero, true)).
Proof.
  intros H Hnb Hw. unfold CheckAndIncrement, no_block_test_fires in *.
  rewrite H. destruct d as [c ws bu]; simpl in *.
  destruct Hnb; decide_tests; reflexivity.
Qed.

Lemma CheckAndIncrement_count (d : ClientData) :
  s !! clientID = Some d ->
  no_block_test_fires now d ->
  Time_Sub now (WindowStart d) < wd ->
  let c := int_wrap (RequestCount d + 1) in
  let d' := mkClientData c (WindowStart d)
              (if mx <? c then Time_Add now bd else BlockedUntil d) in
  CheckAndIncrement s clientID now wd mx bd =
    (<[clientID := d']> s, (d', true)).
Proof.
  intros H Hnb Hw. unfold CheckAndIncrement, no_block_test_fires in *.
  rewrite H. destruct d as [c ws bu]; simpl in *.
  destruct Hnb; decide_tests; reflexivity.
Qed.

(** The flag is [false] on the blocked branch only. *)
Lemma CheckAndIncrement_false (s' : MemoryStorage) (d : ClientData) :
  CheckAndIncrement s clientID now wd mx bd = (s', (d, false)) ->
  s' = s /\ s !! clientID = Some d /\
  BlockedUntil d <> Time_zero /\ now < BlockedUntil d.
Proof.
  unfold CheckAndIncrement.
  destruct (s !! clientID) as [[c ws bu]|] eqn:E; simpl; [|congruence].
  decide_tests; intros [= <- <-]; simpl; auto.
Qed.
End Branches.

(* ------------------------------------------------------------------ *)
(** ** The branches of [Allow] *)

Section AllowBranches.
Variables (rl : RateLimiter) (s : MemoryStorage) (clientID : string).
Variables (now later : Time).

Lemma Allow_blocked (d : ClientData) :
  s !! clientID = Some d ->
  BlockedUntil d <> Time_zero -> now < BlockedUntil d ->
  Allow rl s clientID now later =
    (s, mkResult false (RequestCount d) (maxRequests rl) (BlockedUntil d)
          (let sec := whole_seconds (time_Until later (BlockedUntil d)) in
           if sec <? 1 then 1 else sec)
          (errorMessage rl)).
Proof.
  intros H Hnz Hlt. unfold Allow.
  rewrite (CheckAndIncrement_blocked _ _ _ _ _ _ d) by assumption.
  reflexivity.
Qed.

(** A record just reset, or just created, holds one request. *)
Lemma Allow_restart :
  s !! clientID = None \/
  (exists d, s !! clientID = Some d /\
     ((BlockedUntil d <> Time_zero /\ BlockedUntil d < now) \/
      (no_block_test_fires now d /\
       windowDuration rl <= Time_Sub now (WindowStart d)))) ->
  Allow rl s clientID now later =
    (<[clientID := mkClientData 1 now Time_zero]> s,
     if maxRequests rl <? 1
     then mkResult false 1 (maxRequests rl) Time_zero
                   (whole_seconds (blockDuration rl)) (errorMessage rl)
     else allowed_result rl 1).
Proof.
  intros H. unfold Allow.
  assert (CheckAndIncrement s clientID now (windowDuration rl)
            (maxRequests rl) (blockDuration rl) =
          (<[clientID := mkClientData 1 now Time_zero]> s,
           (mkClientData 1 now Time_zero, true))) as ->.
  { destruct H as [H | (d & H & [[Hnz Hlt] | [Hnb Hw]])].
    - by apply CheckAndIncrement_fresh.
    - by apply (CheckAndIncrement_expired _ _ _ _ _ _ d).
    - by apply (CheckAndIncrement_window _ _ _ _ _ _ d). }
  simpl. destruct (maxRequests rl <? 1); reflexivity.
Qed.

Lemma Allow_count (d : ClientData) :
  s !! clientID = Some d ->
  no_block_test_fires now d ->
  Time_Sub now (WindowStart d) < windowDuration rl ->
  let c := int_wrap (RequestCount d + 1) in
  Allow rl s clientID now later =
    if maxRequests rl <? c then
      (<[clientID := mkClientData c (WindowStart d)
                       (Time_Add now (blockDuration rl))]> s,
       mkResult false c (maxRequests rl) (Time_Add now (blockDuration rl))
                (whole_seconds (blockDuration rl)) (errorMessage rl))
    else
      (<[clientID := mkClientData c (WindowStart d) (BlockedUntil d)]> s,
       allowed_result rl c).
Proof.
  intros H Hnb Hw c. unfold Allow.
  rewrite (CheckAndIncrement_count _ _ _ _ _ _ d) by assumption.
  fold c. simpl. destruct (maxRequests rl <? c); reflexivity.
Qed.
End AllowBranches.

(* ------------------------------------------------------------------ *)
(** ** Single calls *)

(** C6.  A call that finds a block recorded ([BlockedUntil] not zero) which
    has not yet ended ([now] before [BlockedUntil]) is denied; it reports
    the recorded request count and [RetryAfter = BlockedUntil], advertises
    at least one second, and leaves the whole store, hence the record of
    the client, as it was. *)
Theorem blocked_call_denied_store_unchanged
  (rl : RateLimiter) (s : MemoryStorage) (clientID : string)
  (now later : Time) (d : ClientData) :
  s !! clientID = Some d ->
  BlockedUntil d <> Time_zero ->
  now < BlockedUntil d ->
  fst (Allow rl s clientID now later) = s /\
  fst (Allow rl s clientID now later) !! clientID = Some d /\
  Allowed (snd (Allow rl s clientID now later)) = false /\
  RequestsMade (snd (Allow rl s clientID now later)) = RequestCount d /\
  RetryAfter (snd (Allow rl s clientID now later)) = BlockedUntil d /\
  1 <= RetryAfterSec (snd (Allow rl s clientID now later)).
Proof.
  intros H Hnz Hlt. rewrite (Allow_blocked _ _ _ _ _ d) by assumption.
  simpl. repeat split; try assumption.
  destruct (Z.ltb_spec (whole_seconds (time_Until later (BlockedUntil d))) 1);
    lia.
Qed.

Lemma blocked_call_denied_store_unchanged_witness :
  let rl := limiter 1 Minute Minute in
  let s := store_blocked Minute in
  let now := t0 + Second in
  fst (Allow rl s client now now) = s /\
  fst (Allow rl s client now now) !! client =
    Some (mkClientData 2 t0 (Time_Add t0 Minute)) /\
  Allowed (snd (Allow rl s client now now)) = false /\
  RequestsMade (snd (Allow rl s client now now)) = 2 /\
  RetryAfter (snd (Allow rl s client now now)) = Time_Add t0 Minute /\
  1 <= RetryAfterSec (snd (Allow rl s client now now)).
Proof.
  apply (blocked_call_denied_store_unchanged
           (limiter 1 Minute Minute) (store_blocked Minute) client
           (t0 + Second) (t0 + Second)
           (mkClientData 2 t0 (Time_Add t0 Minute))).
  - reflexivity.
  - vm_compute. lia.
  - reflexivity.
Defined.

(** C5.  A call that finds the client's record with no block recorded and
    the window still running ([now.Sub(WindowStart) < windowDuration])
    stores the request count incremented by one (Go's [RequestCount++],
    which is [+ 1] below the largest [int]) and leaves [WindowStart] as it
    was.  When the incremented count exceeds [maxRequests] it stores
    [BlockedUntil = now + blockDuration] and returns a denial that reports
    the incremented count and [RetryAfter = now + blockDuration]; otherwise
    it returns an accepted decision that reports the incremented count. *)
Theorem counted_call_increments_then_decides
  (rl : RateLimiter) (s : MemoryStorage) (clientID : string)
  (now later : Time) (d : ClientData) :
  s !! clientID = Some d ->
  BlockedUntil d = Time_zero ->
  Time_Sub now (WindowStart d) < windowDuration rl ->
  let c := int_wrap (RequestCount d + 1) in
  let blockedUntil := Time_Add now (blockDuration rl) in
  (min_int <= RequestCount d < max_int -> c = RequestCount d + 1) /\
  (maxRequests rl < c ->
     Allow rl s clientID now later =
       (<[clientID := mkClientData c (WindowStart d) blockedUntil]> s,
        mkResult false c (maxRequests rl) blockedUntil
                 (whole_seconds (blockDuration rl)) (errorMessage rl))) /\
  (c <= maxRequests rl ->
     Allow rl s clientID now later =
       (<[clientID := mkClientData c (WindowStart d) Time_zero]> s,
        allowed_result rl c)).
Proof.
  intros H Hz Hw c blockedUntil.
  assert (Hnb : no_block_test_fires now d) by (left; exact Hz).
  pose proof (Allow_count rl s clientID now later d H Hnb Hw) as HA.
  simpl in HA. fold c in HA. rewrite Hz in HA.
  split; [apply int_wrap_succ|].
  split; intros Hc; rewrite HA.
  - destruct (Z.ltb_spec (maxRequests rl) c); [reflexivity | lia].
  - destruct (Z.ltb_spec (maxRequests rl) c); [lia | reflexivity].
Qed.

Lemma counted_call_increments_then_decides_witness :
  let rl := limiter 1 Minute Minute in
  let c := int_wrap (1 + 1) in
  let blockedUntil := Time_Add (t0 + Second) (blockDuration rl) in
  (min_int <= 1 < max_int -> c = 1 + 1) /\
  (maxRequests rl < c ->
     Allow rl store_one client (t0 + Second) (t0 + Second) =
       (<[client := mkClientData c t0 blockedUntil]> store_one,
        mkResult false c (maxRequests rl) blockedUntil
                 (whole_seconds (blockDuration rl)) (errorMessage rl))) /\
  (c <= maxRequests rl ->
     Allow rl store_one client (t0 + Second) (t0 + Second) =
       (<[client := mkClientData c t0 Time_zero]> store_one,
        allowed_result rl c)).
Proof.
  apply (counted_call_increments_then_decides
           (limiter 1 Minute Minute) store_one client
           (t0 + Second) (t0 + Second) (mkClientData 1 t0 Time_zero)).
  - reflexivity.
  - reflexivity.
  - vm_compute. reflexivity.
Defined.

(** What a call gives that restarts the client's record: the record in
    the store, the count reported, and the decision, which the limit alone
    settles. *)
Lemma Allow_restart_outcome
  (rl : RateLimiter) (s : MemoryStorage) (clientID : string)
  (now later : Time) :
  Allow rl s clientID now later =
    (<[clientID := mkClientData 1 now Time_zero]> s,
     if maxRequests rl <? 1
     then mkResult false 1 (maxRequests rl) Time_zero
                   (whole_seconds (blockDuration rl)) (errorMessage rl)
     else allowed_result rl 1) ->
  fst (Allow rl s clientID now later)
    = <[clientID := mkClientData 1 now Time_zero]> s /\
  RequestsMade (snd (Allow rl s clientID now later)) = 1 /\
  (Allowed (snd (Allow rl s clientID now later)) = true
     <-> 1 <= maxRequests rl) /\
  (1 <= maxRequests rl ->
     snd (Allow rl s clientID now later) = allowed_result rl 1) /\
  (maxRequests rl <= 0 ->
     snd (Allow rl s clientID now later)
       = mkResult false 1 (maxRequests rl) Time_zero
                  (whole_seconds (blockDuration rl)) (errorMessage rl)).
Proof.
  intros ->. cbn [fst snd].
  destruct (Z.ltb_spec (maxRequests rl) 1); simpl.
  - repeat split; try reflexivity; try lia; try discriminate.
  - repeat split; try reflexivity; try lia; auto.
Qed.

(** C3, as amended.  For every configuration, the first call for a client
    that has no record stores [RequestCount = 1], [WindowStart = now] and no
    block, and reports [RequestsMade = 1].  The call is accepted exactly
    when [maxRequests] is at least 1; with [maxRequests] at most 0 it is
    denied, still with [RequestsMade = 1]. *)
Theorem first_call_counts_one_and_follows_limit
  (rl : RateLimiter) (s : MemoryStorage) (clientID : string)
  (now later : Time) :
  s !! clientID = None ->
  fst (Allow rl s clientID now later)
    = <[clientID := mkClientData 1 now Time_zero]> s /\
  RequestsMade (snd (Allow rl s clientID now later)) = 1 /\
  (Allowed (snd (Allow rl s clientID now later)) = true
     <-> 1 <= maxRequests rl) /\
  (1 <= maxRequests rl ->
     snd (Allow rl s clientID now later) = allowed_result rl 1) /\
  (maxRequests rl <= 0 ->
     snd (Allow rl s clientID now later)
       = mkResult false 1 (maxRequests rl) Time_zero
                  (whole_seconds (blockDuration rl)) (errorMessage rl)).
Proof.
  intros H. apply Allow_restart_outcome, Allow_restart. left. exact H.
Qed.

Lemma first_call_counts_one_and_follows_limit_witness :
  fst (Allow New NewMemoryStorage client t0 t0)
    = <[client := mkClientData 1 t0 Time_zero]> NewMemoryStorage /\
  RequestsMade (snd (Allow New NewMemoryStorage client t0 t0)) = 1 /\
  (Allowed (snd (Allow New NewMemoryStorage client t0 t0)) = true
     <-> 1 <= maxRequests New) /\
  (1 <= maxRequests New ->
     snd (Allow New NewMemoryStorage client t0 t0) = allowed_result New 1) /\
  (maxRequests New <= 0 ->
     snd (Allow New NewMemoryStorage client t0 t0)
       = mkResult false 1 (maxRequests New) Time_zero
                  (whole_seconds (blockDuration New)) (errorMessage New)).
Proof.
  apply (first_call_counts_one_and_follows_limit New NewMemoryStorage client
           t0 t0).
  reflexivity.
Defined.

(** C3 as stated fails: a limiter with [maxRequests = 0] denies the first
    call of a client without a record. *)
Lemma first_call_denied_when_limit_zero :
  NewMemoryStorage !! client = None /\
  Allowed (snd (Allow (limiter 0 Minute Minute) NewMemoryStorage client t0 t0))
    = false /\
  RequestsMade
    (snd (Allow (limiter 0 Minute Minute) NewMemoryStorage client t0 t0)) = 1.
Proof. vm_compute. auto. Qed.

(** C4, as amended.  For every configuration, a call that finds a block
    recorded which has ended, [now] being after [BlockedUntil], or being
    [BlockedUntil] itself with the window elapsed, replaces the client's
    record by [RequestCount = 1], [WindowStart = now] and no block, and
    reports [RequestsMade = 1].  The call is accepted exactly when
    [maxRequests] is at least 1. *)
Theorem call_after_block_restarts_window
  (rl : RateLimiter) (s : MemoryStorage) (clientID : string)
  (now later : Time) (d : ClientData) :
  s !! clientID = Some d ->
  BlockedUntil d <> Time_zero ->
  BlockedUntil d <= now ->
  (now = BlockedUntil d ->
   windowDuration rl <= Time_Sub now (WindowStart d)) ->
  fst (Allow rl s clientID now later)
    = <[clientID := mkClientData 1 now Time_zero]> s /\
  RequestsMade (snd (Allow rl s clientID now later)) = 1 /\
  (Allowed (snd (Allow rl s clientID now later)) = true
     <-> 1 <= maxRequests rl) /\
  (1 <= maxRequests rl ->
     snd (Allow rl s clientID now later) = allowed_result rl 1) /\
  (maxRequests rl <= 0 ->
     snd (Allow rl s clientID now later)
       = mkResult false 1 (maxRequests rl) Time_zero
                  (whole_seconds (blockDuration rl)) (errorMessage rl)).
Proof.
  intros H Hnz Hle Heq. apply Allow_restart_outcome, Allow_restart.
  right. exists d. split; [exact H|].
  destruct (Z.eq_dec now (BlockedUntil d)) as [Hnow|Hnow].
  - right. split; [right; exact Hnow | apply Heq, Hnow].
  - left. split; [exact Hnz | lia].
Qed.

Lemma call_after_block_restarts_window_witness :
  let rl := limiter 1 Minute Minute in
  let now := t0 + Minute in
  fst (Allow rl (store_blocked Minute) client now now)
    = <[client := mkClientData 1 now Time_zero]> (store_blocked Minute) /\
  RequestsMade (snd (Allow rl (store_blocked Minute) client now now)) = 1 /\
  (Allowed (snd (Allow rl (store_blocked Minute) client now now)) = true
     <-> 1 <= maxRequests rl) /\
  (1 <= maxRequests rl ->
     snd (Allow rl (store_blocked Minute) client now now)
       = allowed_result rl 1) /\
  (maxRequests rl <= 0 ->
     snd (Allow rl (store_blocked Minute) client now now)
       = mkResult false 1 (maxRequests rl) Time_zero
                  (whole_seconds (blockDuration rl)) (errorMessage rl)).
Proof.
  apply (call_after_block_restarts_window
           (limiter 1 Minute Minute) (store_blocked Minute) client
           (t0 + Minute) (t0 + Minute)
           (mkClientData 2 t0 (Time_Add t0 Minute))).
  - reflexivity.
  - vm_compute. lia.
  - vm_compute. discriminate.
  - intros _. vm_compute. discriminate.
Defined.

(** C4 as stated fails twice.  With [maxRequests = 0] the call after the
    end of the block restarts the window and is denied all the same.  And
    at the very instant [BlockedUntil], inside the window, neither block
    test fires: the request is counted on top of the old count, the block
    is set anew and the call is denied. *)
Lemma call_at_or_after_block_end_denied :
  (store_blocked Minute !! client
     = Some (mkClientData 2 t0 (Time_Add t0 Minute)) /\
   Time_Add t0 Minute <> Time_zero /\
   Time_Add t0 Minute <= t0 + 2 * Minute /\
   Allowed (snd (Allow (limiter 0 Minute Minute) (store_blocked Minute) client
                       (t0 + 2 * Minute) (t0 + 2 * Minute))) = false)
  /\
  (store_blocked Second !! client
     = Some (mkClientData 2 t0 (Time_Add t0 Second)) /\
   Time_Add t0 Second <> Time_zero /\
   Time_Add t0 Second <= t0 + Second /\
   Allow (limiter 1 Minute Second) (store_blocked Second) client
         (t0 + Second) (t0 + Second) =
     (<[client := mkClientData 3 t0 (t0 + 2 * Second)]> (store_blocked Second),
      mkResult false 3 1 (t0 + 2 * Second) 1 "Rate limit exceeded")).
Proof.
  split.
  - repeat split; try reflexivity; vm_compute; discriminate.
  - split; [reflexivity|]. split; [vm_compute; discriminate|].
    split; [vm_compute; discriminate|].
    pose proof (Allow_count (limiter 1 Minute Second) (store_blocked Second)
                  client (t0 + Second) (t0 + Second)
                  (mkClientData 2 t0 (Time_Add t0 Second)) eq_refl
                  (or_intror eq_refl) eq_refl) as ->.
    vm_compute. reflexivity.
Qed.

(** C8, as amended.  For every configuration, a call that finds the
    client's record with no block recorded and the window elapsed
    ([now.Sub(WindowStart) >= windowDuration], the bound included) replaces
    the record by [RequestCount = 1], [WindowStart = now] and no block, and
    reports [RequestsMade = 1], also for a client that never was blocked.
    The call is accepted exactly when [maxRequests] is at least 1. *)
Theorem call_after_window_restarts_window
  (rl : RateLimiter) (s : MemoryStorage) (clientID : string)
  (now later : Time) (d : ClientData) :
  s !! clientID = Some d ->
  BlockedUntil d = Time_zero ->
  windowDuration rl <= Time_Sub now (WindowStart d) ->
  fst (Allow rl s clientID now later)
    = <[clientID := mkClientData 1 now Time_zero]> s /\
  RequestsMade (snd (Allow rl s clientID now later)) = 1 /\
  (Allowed (snd (Allow rl s clientID now later)) = true
     <-> 1 <= maxRequests rl) /\
  (1 <= maxRequests rl ->
     snd (Allow rl s clientID now later) = allowed_result rl 1) /\
  (maxRequests rl <= 0 ->
     snd (Allow rl s clientID now later)
       = mkResult false 1 (maxRequests rl) Time_zero
                  (whole_seconds (blockDuration rl)) (errorMessage rl)).
Proof.
  intros H Hz Hw. apply Allow_restart_outcome, Allow_restart.
  right. exists d. split; [exact H|].
  right. split; [left; exact Hz | exact Hw].
Qed.

Lemma call_after_window_restarts_window_witness :
  let now := t0 + Minute in
  fst (Allow New store_one client now now)
    = <[client := mkClientData 1 now Time_zero]> store_one /\
  RequestsMade (snd (Allow New store_one client now now)) = 1 /\
  (Allowed (snd (Allow New store_one client now now)) = true
     <-> 1 <= maxRequests New) /\
  (1 <= maxRequests New ->
     snd (Allow New store_one client now now) = allowed_result New 1) /\
  (maxRequests New <= 0 ->
     snd (Allow New store_one client now now)
       = mkResult false 1 (maxRequests New) Time_zero
                  (whole_seconds (blockDuration New)) (errorMessage New)).
Proof.
  apply (call_after_window_restarts_window New store_one client
           (t0 + Minute) (t0 + Minute) (mkClientData 1 t0 Time_zero)).
  - reflexivity.
  - reflexivity.
  - vm_compute. discriminate.
Defined.

(** C8 as stated fails: with [maxRequests = 0] the call after the window
    restarts the window and is denied. *)
Lemma call_after_window_denied_when_limit_zero :
  store_one !! client = Some (mkClientData 1 t0 Time_zero) /\
  windowDuration (limiter 0 Minute Minute) <= (t0 + Minute) - t0 /\
  fst (Allow (limiter 0 Minute Minute) store_one client
             (t0 + Minute) (t0 + Minute)) !! client
    = Some (mkClientData 1 (t0 + Minute) Time_zero) /\
  Allowed (snd (Allow (limiter 0 Minute Minute) store_one client
                      (t0 + Minute) (t0 + Minute))) = false.
Proof.
  split; [reflexivity|]. split; [vm_compute; discriminate|].
  rewrite Allow_restart.
  - split; [apply lookup_insert_eq | reflexivity].
  - right. exists (mkClientData 1 t0 Time_zero). split; [reflexivity|].
    right. split; [left; reflexivity | vm_compute; discriminate].
Qed.

(** C10.  With [maxRequests] at most 0, the call for a client without a
    record is denied with the zero instant as [RetryAfter] and
    [int(blockDuration.Seconds())] as [RetryAfterSec]; the store then holds
    [RequestCount = 1] with [BlockedUntil] zero, so that no later call for
    the client, whatever its clock reading, is answered from the blocked
    branch of [CheckAndIncrement]. *)
Theorem first_call_over_limit_records_no_block
  (rl : RateLimiter) (s : MemoryStorage) (clientID : string)
  (now later : Time) :
  maxRequests rl <= 0 ->
  s !! clientID = None ->
  Allow rl s clientID now later =
    (<[clientID := mkClientData 1 now Time_zero]> s,
     mkResult false 1 (maxRequests rl) Time_zero
              (whole_seconds (blockDuration rl)) (errorMessage rl)) /\
  fst (Allow rl s clientID now later) !! clientID
    = Some (mkClientData 1 now Time_zero) /\
  forall next : Time,
    snd (snd (CheckAndIncrement (fst (Allow rl s clientID now later)) clientID
                next (windowDuration rl) (maxRequests rl) (blockDuration rl)))
    = true.
Proof.
  intros Hmx H. rewrite Allow_restart by (left; exact H).
  destruct (Z.ltb_spec (maxRequests rl) 1); [|lia]. simpl.
  split; [reflexivity|]. split; [apply lookup_insert_eq|].
  intros next.
  destruct (CheckAndIncrement _ clientID next _ _ _) as [s' [d' [|]]] eqn:E;
    [reflexivity|].
  apply CheckAndIncrement_false in E as (_ & Hd & Hnz & _).
  rewrite lookup_insert_eq in Hd. injection Hd as <-. simpl in Hnz. done.
Qed.

Lemma first_call_over_limit_records_no_block_witness :
  let rl := limiter 0 Minute Minute in
  Allow rl NewMemoryStorage client t0 t0 =
    (<[client := mkClientData 1 t0 Time_zero]> NewMemoryStorage,
     mkResult false 1 (maxRequests rl) Time_zero
              (whole_seconds (blockDuration rl)) (errorMessage rl)) /\
  fst (Allow rl NewMemoryStorage client t0 t0) !! client
    = Some (mkClientData 1 t0 Time_zero) /\
  forall next : Time,
    snd (snd (CheckAndIncrement (fst (Allow rl NewMemoryStorage client t0 t0))
                client next (windowDuration rl) (maxRequests rl)
                (blockDuration rl)))
    = true.
Proof.
  apply (first_call_over_limit_records_no_block (limiter 0 Minute Minute)
           NewMemoryStorage client t0 t0).
  - vm_compute. discriminate.
  - reflexivity.
Defined.

(** Where a denial comes from: the blocked branch, which advertises at
    least one second, or the test of the count against [maxRequests], which
    advertises [int(blockDuration.Seconds())] as it is. *)
Lemma Allow_denied_retry_after
  (rl : RateLimiter) (s : MemoryStorage) (clientID : string)
  (now later : Time) :
  Allowed (snd (Allow rl s clientID now later)) = false ->
  1 <= RetryAfterSec (snd (Allow rl s clientID now later)) \/
  RetryAfterSec (snd (Allow rl s clientID now later))
    = whole_seconds (blockDuration rl).
Proof.
  unfold Allow.
  destruct (CheckAndIncrement _ _ _ _ _ _) as [s' [d [|]]]; simpl.
  - destruct (maxRequests rl <? RequestCount d); simpl; [auto | discriminate].
  - intros _. left.
    destruct (Z.ltb_spec (whole_seconds (time_Until later (BlockedUntil d))) 1);
      lia.
Qed.

(** C1, at a failing input.  A limiter with [maxRequests = 1] and a block
    of half a second serves two calls of one client at the same instant:
    the second call is denied by the test of the count against
    [maxRequests], and advertises a wait of zero seconds. *)
Theorem limit_exceeded_advertises_zero_seconds :
  snd (serve (limiter 1 Minute (500 * Millisecond)) NewMemoryStorage
             [mkCall client t0 t0 t0; mkCall client t0 t0 t0]) =
    [allowed_result (limiter 1 Minute (500 * Millisecond)) 1;
     mkResult false 2 1 (t0 + 500 * Millisecond) 0 "Rate limit exceeded"].
Proof. vm_compute. reflexivity. Qed.

(** The same with a block of zero length, and with a negative one. *)
Lemma limit_exceeded_advertises_no_wait :
  RetryAfterSec
    (snd (Allow (limiter 1 Minute 0) store_one client t0 t0)) = 0 /\
  RetryAfterSec
    (snd (Allow (limiter 1 Minute (- Minute)) store_one client t0 t0)) = -60.
Proof. vm_compute. auto. Qed.

(* ------------------------------------------------------------------ *)
(** ** The two variants of [Allow] *)

(** With [maxRequests] at least 1 the earlier variant and the current one
    agree on every call: same result, same store. *)
Lemma Earlier_Allow_agrees
  (rl : RateLimiter) (s : MemoryStorage) (clientID : string)
  (now later clock : Time) :
  1 <= maxRequests rl ->
  Earlier.Allow rl s clientID now later clock = Allow rl s clientID now later.
Proof.
  intros Hmx.
  unfold Earlier.Allow, Allow, CheckAndIncrement, GetClientData.
  destruct (s !! clientID) as [[c ws bu]|] eqn:E; simpl.
  - destruct (negb (Time_IsZero bu) && Time_Before now bu); [reflexivity|].
    destruct (negb (Time_IsZero bu) && Time_After now bu); simpl.
    + unfold Earlier.count_and_decide, SetClientData, ResetWindow; simpl.
      rewrite insert_insert_eq.
      destruct (Z.ltb_spec (maxRequests rl) 1); [lia | reflexivity].
    + destruct (windowDuration rl <=? Time_Sub now ws); simpl.
      * unfold Earlier.count_and_decide, SetClientData, ResetWindow; simpl.
        rewrite insert_insert_eq.
        destruct (Z.ltb_spec (maxRequests rl) 1); [lia | reflexivity].
      * unfold Earlier.count_and_decide, IncrementRequestCount; simpl.
        rewrite E; simpl.
        destruct (maxRequests rl <? int_wrap (c + 1)); simpl; [|reflexivity].
        unfold BlockClient. rewrite lookup_insert_eq, insert_insert_eq.
        reflexivity.
  - unfold Earlier.count_and_decide, SetClientData; simpl.
    destruct (Z.ltb_spec (maxRequests rl) 1); [lia | reflexivity].
Qed.

Lemma serve_earlier_agrees (rl : RateLimiter) (calls : list Call) :
  1 <= maxRequests rl ->
  forall s : MemoryStorage, serve_earlier rl s calls = serve rl s calls.
Proof.
  intros Hmx. induction calls as [|c rest IH]; intros s; simpl; [reflexivity|].
  rewrite Earlier_Allow_agrees by assumption.
  destruct (Allow rl s _ _ _) as [s1 r]. rewrite IH. reflexivity.
Qed.

(** C9, at a failing input.  With [maxRequests = 0] the variants part on
    the first call of a client: the earlier one records a block until
    [now + blockDuration] and reports it as [RetryAfter]; the current one
    records no block and reports the zero instant. *)
Theorem variants_differ_when_limit_zero :
  Earlier.Allow (limiter 0 Minute Minute) NewMemoryStorage client t0 t0 t0 =
    ({[ client := mkClientData 1 t0 (t0 + Minute) ]},
     mkResult false 1 0 (t0 + Minute) 60 "Rate limit exceeded") /\
  Allow (limiter 0 Minute Minute) NewMemoryStorage client t0 t0 =
    ({[ client := mkClientData 1 t0 Time_zero ]},
     mkResult false 1 0 Time_zero 60 "Rate limit exceeded") /\
  snd (Earlier.Allow (limiter 0 Minute Minute) NewMemoryStorage client t0 t0 t0)
    <> snd (Allow (limiter 0 Minute Minute) NewMemoryStorage client t0 t0) /\
  fst (Earlier.Allow (limiter 0 Minute Minute) NewMemoryStorage client t0 t0 t0)
      !! client
    <> fst (Allow (limiter 0 Minute Minute) NewMemoryStorage client t0 t0)
      !! client.
Proof.
  split; [vm_compute; reflexivity|]. split; [vm_compute; reflexivity|].
  split; vm_compute; discriminate.
Qed.

(* ------------------------------------------------------------------ *)
(** ** A limiter that admits nothing *)

Lemma counts_within_insert (n : Z) (s : MemoryStorage) (k : string)
  (d : ClientData) :
  counts_within n s -> 0 <= RequestCount d <= n + 1 ->
  counts_within (n + 1) (<[k := d]> s).
Proof.
  intros Hs Hd k' d'. destruct (decide (k = k')) as [<-|Hne].
  - rewrite lookup_insert_eq. intros [= <-]. exact Hd.
  - rewrite lookup_insert_ne by exact Hne. intros H. apply Hs in H. lia.
Qed.

(** One call under [maxRequests = 0], on a store whose counts are not
    negative and below the largest [int]: denied, and the counts grow by
    one at most. *)
Lemma Allow_denied_when_limit_zero
  (rl : RateLimiter) (s : MemoryStorage) (clientID : string)
  (now later : Time) (n : Z) :
  maxRequests rl = 0 -> 0 <= n < max_int -> counts_within n s ->
  Allowed (snd (Allow rl s clientID now later)) = false /\
  counts_within (n + 1) (fst (Allow rl s clientID now later)).
Proof.
  intros Hmx Hn Hs. unfold Allow, CheckAndIncrement. rewrite Hmx.
  destruct (s !! clientID) as [[c ws bu]|] eqn:E; simpl.
  - pose proof (Hs _ _ E) as Hc; simpl in Hc.
    assert (Hw : int_wrap (c + 1) = c + 1) by
      (apply int_wrap_succ; unfold min_int, int_bits; simpl; lia).
    destruct (negb (Time_IsZero bu) && Time_Before now bu); simpl.
    { split; [reflexivity|]. intros k d H. apply Hs in H. lia. }
    destruct (negb (Time_IsZero bu) && Time_After now bu); simpl.
    { split; [reflexivity|]. apply counts_within_insert; simpl; [done | lia]. }
    destruct (windowDuration rl <=? Time_Sub now ws); simpl.
    { split; [reflexivity|]. apply counts_within_insert; simpl; [done | lia]. }
    rewrite Hw. destruct (Z.ltb_spec 0 (c + 1)); [|lia]. simpl.
    split; [reflexivity|]. apply counts_within_insert; simpl; [done | lia].
  - split; [reflexivity|]. apply counts_within_insert; simpl; [done | lia].
Qed.

Lemma serve_denied_when_limit_zero (rl : RateLimiter) (calls : list Call) :
  maxRequests rl = 0 ->
  forall (n : Z) (s : MemoryStorage),
    0 <= n -> n + Z.of_nat (length calls) <= max_int -> counts_within n s ->
    Forall (fun r => Allowed r = false) (snd (serve rl s calls)).
Proof.
  intros Hmx. induction calls as [|c rest IH]; intros n s Hn Hlen Hs; simpl.
  - constructor.
  - simpl in Hlen.
    destruct (Allow_denied_when_limit_zero rl s (call_client c) (call_now c)
                (call_later c) n Hmx ltac:(lia) Hs) as [Hr Hs1].
    destruct (Allow rl s _ _ _) as [s1 r]; simpl in *.
    specialize (IH (n + 1) s1 ltac:(lia) ltac:(lia) Hs1).
    destruct (serve rl s1 rest) as [s2 rs]; simpl in *.
    constructor; assumption.
Qed.

(** C7.  With [maxRequests = 0], every call of a run that starts on the
    empty store is denied, whatever the clients and the clock readings (the
    run being shorter than the largest [int]); and on any store, the first
    call of a client without a record is denied with [RequestsMade = 1]. *)
Theorem every_call_denied_when_limit_zero
  (rl : RateLimiter) (calls : list Call) :
  maxRequests rl = 0 ->
  Z.of_nat (length calls) <= max_int ->
  Forall (fun r => Allowed r = false)
         (snd (serve rl NewMemoryStorage calls)) /\
  forall (s : MemoryStorage) (clientID : string) (now later : Time),
    s !! clientID = None ->
    Allowed (snd (Allow rl s clientID now later)) = false /\
    RequestsMade (snd (Allow rl s clientID now later)) = 1.
Proof.
  intros Hmx Hlen. split.
  - apply (serve_denied_when_limit_zero rl calls Hmx 0); [lia | lia |].
    intros k d H. unfold NewMemoryStorage in H.
    rewrite lookup_empty in H. discriminate.
  - intros s clientID now later H.
    rewrite Allow_restart by (left; exact H). rewrite Hmx. simpl. auto.
Qed.

Lemma every_call_denied_when_limit_zero_witness :
  let rl := limiter 0 Minute Second in
  let calls := [mkCall client t0 t0 t0;
                mkCall client (t0 + Second) (t0 + Second) (t0 + Second);
                mkCall "other" (t0 + Second) (t0 + Second) (t0 + Second);
                mkCall client (t0 + 2 * Minute) (t0 + 2 * Minute)
                       (t0 + 2 * Minute)] in
  Forall (fun r => Allowed r = false)
         (snd (serve rl NewMemoryStorage calls)) /\
  forall (s : MemoryStorage) (clientID : string) (now later : Time),
    s !! clientID = None ->
    Allowed (snd (Allow rl s clientID now later)) = false /\
    RequestsMade (snd (Allow rl s clientID now later)) = 1.
Proof.
  apply (every_call_denied_when_limit_zero (limiter 0 Minute Second)).
  - reflexivity.
  - vm_compute. discriminate.
Defined.

(* ------------------------------------------------------------------ *)
(** ** A burst of calls of one client *)

Lemma serve_cons (rl : RateLimiter) (s : MemoryStorage) (c : Call)
  (rest : list Call) :
  serve rl s (c :: rest) =
    (fst (serve rl (fst (Allow rl s (call_client c) (call_now c)
                               (call_later c))) rest),
     snd (Allow rl s (call_client c) (call_now c) (call_later c))
       :: snd (serve rl (fst (Allow rl s (call_client c) (call_now c)
                                    (call_later c))) rest)).
Proof.
  simpl. destruct (Allow rl s _ _ _) as [s1 r]; simpl.
  destruct (serve rl s1 rest); reflexivity.
Qed.

Lemma serve_app (rl : RateLimiter) (l1 l2 : list Call) :
  forall s : MemoryStorage,
    serve rl s (l1 ++ l2) =
      (fst (serve rl (fst (serve rl s l1)) l2),
       snd (serve rl s l1) ++ snd (serve rl (fst (serve rl s l1)) l2)).
Proof.
  induction l1 as [|c l1 IH]; intros s.
  - simpl. destruct (serve rl s l2); reflexivity.
  - rewrite <- app_comm_cons, !serve_cons, IH. reflexivity.
Qed.

Lemma serve_length (rl : RateLimiter) (calls : list Call) :
  forall s : MemoryStorage, length (snd (serve rl s calls)) = length calls.
Proof.
  induction calls as [|c rest IH]; intros s; [reflexivity|].
  rewrite serve_cons. simpl. rewrite IH. reflexivity.
Qed.

Lemma count_allowed_cons (r : Result) (rs : list Result) :
  count_allowed (r :: rs) =
    ((if Allowed r then 1 else 0) + count_allowed rs)%nat.
Proof.
  unfold count_allowed. rewrite filter_cons.
  destruct (Allowed r); case_decide; simpl; congruence.
Qed.

Lemma count_denied_cons (r : Result) (rs : list Result) :
  count_denied (r :: rs) =
    ((if Allowed r then 0 else 1) + count_denied rs)%nat.
Proof.
  unfold count_denied. rewrite filter_cons.
  destruct (Allowed r); case_decide; simpl; congruence.
Qed.

Lemma count_allowed_denied (rs : list Result) :
  (count_allowed rs + count_denied rs)%nat = length rs.
Proof.
  induction rs as [|r rs IH]; [reflexivity|].
  rewrite count_allowed_cons, count_denied_cons. simpl.
  destruct (Allowed r); lia.
Qed.

Lemma count_allowed_app (rs1 rs2 : list Result) :
  count_allowed (rs1 ++ rs2) = (count_allowed rs1 + count_allowed rs2)%nat.
Proof. unfold count_allowed. rewrite filter_app, length_app. reflexivity. Qed.

Lemma count_allowed_all (rs : list Result) :
  Forall (fun r => Allowed r = true) rs -> count_allowed rs = length rs.
Proof.
  induction 1 as [|r rs Hr _ IH]; [reflexivity|].
  rewrite count_allowed_cons, Hr, IH. reflexivity.
Qed.

Lemma count_allowed_none (rs : list Result) :
  Forall (fun r => Allowed r = false) rs -> count_allowed rs = 0%nat.
Proof.
  induction 1 as [|r rs Hr _ IH]; [reflexivity|].
  rewrite count_allowed_cons, Hr, IH. reflexivity.
Qed.

Section Burst.
Variables (rl : RateLimiter) (k : string).
Hypothesis limit_below_max_int : maxRequests rl < max_int.

(** While the count stays within the limit, the calls are accepted and
    counted one by one. *)
Lemma serve_counting (ws : Time) (l : list Call) :
  forall (c : Z) (s : MemoryStorage),
    s !! k = Some (mkClientData c ws Time_zero) ->
    0 <= c -> c + Z.of_nat (length l) <= maxRequests rl ->
    on_client k l ->
    Forall (fun x => Time_Sub (call_now x) ws < windowDuration rl) l ->
    fst (serve rl s l) !! k
      = Some (mkClientData (c + Z.of_nat (length l)) ws Time_zero) /\
    Forall (fun r => Allowed r = true) (snd (serve rl s l)).
Proof.
  induction l as [|x l IH]; intros c s Hs Hc Hlen Hk Hw.
  - simpl. rewrite Z.add_0_r. split; [exact Hs | constructor].
  - apply Forall_cons in Hk as [Hx Hk]. apply Forall_cons in Hw as [Hwx Hw].
    simpl length in *. rewrite serve_cons, Hx.
    pose proof (Allow_count rl s k (call_now x) (call_later x)
                  (mkClientData c ws Time_zero) Hs (or_introl eq_refl) Hwx)
      as HA.
    simpl in HA. rewrite int_wrap_succ in HA
      by (unfold min_int, int_bits; simpl; lia).
    destruct (Z.ltb_spec (maxRequests rl) (c + 1)); [lia|].
    rewrite HA. simpl.
    destruct (IH (c + 1) (<[k := mkClientData (c + 1) ws Time_zero]> s))
      as [IH1 IH2]; try assumption; try lia.
    { apply lookup_insert_eq. }
    split.
    + rewrite IH1. f_equal. f_equal. lia.
    + constructor; [reflexivity | exact IH2].
Qed.

(** While the block lasts, the calls are denied and the store stays. *)
Lemma serve_blocked (d : ClientData) (l : list Call) :
  forall s : MemoryStorage,
    s !! k = Some d ->
    BlockedUntil d <> Time_zero ->
    on_client k l ->
    Forall (fun x => call_now x < BlockedUntil d) l ->
    fst (serve rl s l) = s /\
    Forall (fun r => Allowed r = false) (snd (serve rl s l)).
Proof.
  induction l as [|x l IH]; intros s Hs Hnz Hk Hb.
  - simpl. split; [reflexivity | constructor].
  - apply Forall_cons in Hk as [Hx Hk]. apply Forall_cons in Hb as [Hbx Hb].
    rewrite serve_cons, Hx.
    rewrite (Allow_blocked rl s k _ _ d) by assumption. simpl.
    destruct (IH s Hs Hnz Hk Hb) as [IH1 IH2].
    split; [exact IH1 | constructor; [reflexivity | exact IH2]].
Qed.

(** The burst, cut at the call that exceeds the limit: [c0 :: l1] are the
    first [maxRequests] calls, [cb] the one that sets the block. *)
Lemma serve_burst (s : MemoryStorage) (c0 cb : Call) (l1 l2 : list Call) :
  1 <= maxRequests rl ->
  Z.of_nat (length (c0 :: l1)) = maxRequests rl ->
  s !! k = None ->
  on_client k (c0 :: l1 ++ cb :: l2) ->
  Time_Add (call_now cb) (blockDuration rl) <> Time_zero ->
  within_one_window rl (c0 :: l1 ++ cb :: l2) ->
  Forall (fun c => call_now c < Time_Add (call_now cb) (blockDuration rl))
         l2 ->
  let run := serve rl s (c0 :: l1 ++ cb :: l2) in
  fst run !! k
    = Some (mkClientData (maxRequests rl + 1) (call_now c0)
                         (Time_Add (call_now cb) (blockDuration rl))) /\
  Forall (fun r => Allowed r = true) (take (length (c0 :: l1)) (snd run)) /\
  Forall (fun r => Allowed r = false) (drop (length (c0 :: l1)) (snd run)).
Proof.
  intros Hmx Hlen Hs Hk Hnz Hw Hb run. subst run.
  apply Forall_cons in Hk as [Hk0 Hk].
  apply Forall_app in Hk as [Hk1 Hk].
  apply Forall_cons in Hk as [Hkb Hk2].
  simpl in Hw. apply Forall_app in Hw as [Hw1 Hw].
  apply Forall_cons in Hw as [Hwb _].
  simpl length in Hlen.
  (* the first call *)
  rewrite serve_cons, Hk0.
  rewrite Allow_restart by (left; exact Hs).
  destruct (Z.ltb_spec (maxRequests rl) 1); [lia|]. cbn [fst snd].
  set (s1 := <[k := mkClientData 1 (call_now c0) Time_zero]> s).
  (* the calls up to the limit *)
  rewrite serve_app. cbn [fst snd].
  destruct (serve_counting (call_now c0) l1 1 s1) as [Hs2 Hr1];
    try assumption; try lia.
  { apply lookup_insert_eq. }
  replace (1 + Z.of_nat (length l1)) with (maxRequests rl) in Hs2 by lia.
  set (s2 := fst (serve rl s1 l1)) in *.
  (* the call that exceeds the limit *)
  rewrite serve_cons, Hkb.
  pose proof (Allow_count rl s2 k (call_now cb) (call_later cb)
                _ Hs2 (or_introl eq_refl) Hwb) as HA.
  simpl in HA. rewrite int_wrap_succ in HA
    by (unfold min_int, int_bits; simpl; lia).
  destruct (Z.ltb_spec (maxRequests rl) (maxRequests rl + 1)); [|lia].
  rewrite HA. cbn [fst snd].
  set (d3 := mkClientData (maxRequests rl + 1) (call_now c0)
               (Time_Add (call_now cb) (blockDuration rl))).
  set (s3 := <[k := d3]> s2).
  (* the calls under the block *)
  destruct (serve_blocked d3 l2 s3) as [Hs4 Hr2]; try assumption.
  { apply lookup_insert_eq. }
  rewrite Hs4. split; [apply lookup_insert_eq|].
  assert (Hl1 : length (snd (serve rl s1 l1)) = length l1)
    by apply serve_length.
  split.
  - simpl. constructor; [reflexivity|].
    rewrite take_app_length' by (symmetry; exact Hl1). exact Hr1.
  - simpl. rewrite drop_app_length' by (symmetry; exact Hl1).
    constructor; [reflexivity | exact Hr2].
Qed.
End Burst.

(** C2, as amended.  A limiter with [1 <= maxRequests = K] (below the
    largest [int]) and a positive [blockDuration] serves [M > K] calls of
    one client that has no record, all within the window the first call
    opens and none after the end of the block: exactly [K] calls are
    accepted and [M - K] denied, and the store ends with
    [RequestCount = K + 1] for the client, the calls denied under the block
    not being counted. *)
Theorem burst_allows_limit_denies_rest
  (rl : RateLimiter) (s : MemoryStorage) (k : string) (calls : list Call) :
  1 <= maxRequests rl < max_int ->
  0 < blockDuration rl ->
  maxRequests rl < Z.of_nat (length calls) ->
  s !! k = None ->
  on_client k calls ->
  clock_after_zero calls ->
  within_one_window rl calls ->
  no_block_expires rl calls ->
  Z.of_nat (count_allowed (snd (serve rl s calls))) = maxRequests rl /\
  Z.of_nat (count_denied (snd (serve rl s calls)))
    = Z.of_nat (length calls) - maxRequests rl /\
  RequestCount <$> fst (serve rl s calls) !! k = Some (maxRequests rl + 1).
Proof.
  intros [Hmx Hmax] Hbd Hlen Hs Hk Hclock Hw Hnb.
  destruct (lookup_lt_is_Some_2 calls (Z.to_nat (maxRequests rl)))
    as [cb Hcb]; [lia|].
  pose proof (Hnb cb Hcb) as Hb.
  pose proof (Forall_lookup_1 _ _ _ _ Hclock Hcb) as Hcb0.
  pose proof (take_drop_middle _ _ _ Hcb) as Hsplit.
  destruct (Z.to_nat (maxRequests rl)) as [|m] eqn:Em; [lia|].
  destruct calls as [|c0 rest]; [discriminate|].
  simpl in Hsplit, Hb, Hlen.
  assert (Hl1 : length (take m rest) = m) by (apply length_take_le; lia).
  set (l1 := take m rest) in *. set (l2 := drop (S m) rest) in *.
  assert (Hn : Z.of_nat (length (c0 :: l1)) = maxRequests rl)
    by (simpl; lia).
  rewrite <- Hsplit in Hk, Hw |- *.
  destruct (serve_burst rl k Hmax s c0 cb l1 l2)
    as (Hstore & Hfirst & Hrest); try assumption.
  { unfold Time_Add, Time_zero in *. lia. }
  set (rs := snd (serve rl s (c0 :: l1 ++ cb :: l2))) in *.
  assert (Hrs : length rs = length (c0 :: l1 ++ cb :: l2))
    by apply serve_length.
  assert (Hall : count_allowed rs = length (c0 :: l1)).
  { rewrite <- (take_drop (length (c0 :: l1)) rs) at 1.
    rewrite count_allowed_app, (count_allowed_all _ Hfirst),
      (count_allowed_none _ Hrest), length_take_le; [lia|].
    rewrite Hrs. simpl. rewrite length_app. lia. }
  pose proof (count_allowed_denied rs) as Hsum.
  split; [lia|]. split; [lia|].
  rewrite Hstore. reflexivity.
Qed.

Lemma burst_allows_limit_denies_rest_witness :
  let rl := limiter 2 Minute Minute in
  let calls := [mkCall client t0 t0 t0;
                mkCall client (t0 + Second) (t0 + Second) (t0 + Second);
                mkCall client (t0 + 2 * Second) (t0 + 2 * Second)
                       (t0 + 2 * Second);
                mkCall client (t0 + 3 * Second) (t0 + 3 * Second)
                       (t0 + 3 * Second);
                mkCall client (t0 + 59 * Second) (t0 + 59 * Second)
                       (t0 + 59 * Second)] in
  Z.of_nat (count_allowed (snd (serve rl NewMemoryStorage calls))) = 2 /\
  Z.of_nat (count_denied (snd (serve rl NewMemoryStorage calls))) = 5 - 2 /\
  RequestCount <$> fst (serve rl NewMemoryStorage calls) !! client
    = Some (2 + 1).
Proof.
  apply (burst_allows_limit_denies_rest (limiter 2 Minute Minute)
           NewMemoryStorage client).
  - vm_compute. split; [discriminate | reflexivity].
  - reflexivity.
  - reflexivity.
  - reflexivity.
  - repeat constructor.
  - repeat constructor.
  - simpl. repeat constructor.
  - intros cb [= <-]. simpl. repeat constructor.
Defined.

(** C2 as stated fails in its last part: with [K = 1] and [M = 3] calls at
    one instant, one call is accepted and two are denied, but the stored
    count ends at 2, not at 3. *)
Lemma burst_count_stops_after_block :
  let rl := limiter 1 Minute Minute in
  let calls := [mkCall client t0 t0 t0; mkCall client t0 t0 t0;
                mkCall client t0 t0 t0] in
  NewMemoryStorage !! client = None /\
  within_one_window rl calls /\
  no_block_expires rl calls /\
  count_allowed (snd (serve rl NewMemoryStorage calls)) = 1%nat /\
  count_denied (snd (serve rl NewMemoryStorage calls)) = 2%nat /\
  RequestCount <$> fst (serve rl NewMemoryStorage calls) !! client = Some 2 /\
  RequestCount <$> fst (serve rl NewMemoryStorage calls) !! client
    <> Some (Z.of_nat (length calls)).
Proof.
  split; [reflexivity|].
  split; [simpl; repeat constructor|].
  split; [intros cb [= <-]; simpl; repeat constructor|].
  vm_compute. repeat split; discriminate.
Qed.

(* ------------------------------------------------------------------ *)
(** ** The store operations *)

(** X1.  [GetClientData] after [SetClientData] returns the record that was
    set, for the client it was set for, and what the store held before for
    every other client. *)
Theorem SetClientData_then_GetClientData
  (s : MemoryStorage) (k k' : string) (d : ClientData) :
  GetClientData (SetClientData s k d) k' =
    if decide (k = k') then Some d else GetClientData s k'.
Proof.
  unfold GetClientData, SetClientData. destruct d as [c ws bu]; simpl.
  case_decide as Hk.
  - subst k'. apply lookup_insert_eq.
  - apply lookup_insert_ne. exact Hk.
Qed.

Lemma increments_counts (k : string) (clocks : list Time) :
  forall (s : MemoryStorage) (c : Z) (ws bu : Time),
    s !! k = Some (mkClientData c ws bu) ->
    0 <= c -> c + Z.of_nat (length clocks) <= max_int ->
    snd (increments s k clocks)
      = map (fun i => c + Z.of_nat i) (seq 1 (length clocks)) /\
    fst (increments s k clocks) !! k
      = Some (mkClientData (c + Z.of_nat (length clocks)) ws bu).
Proof.
  induction clocks as [|clock rest IH]; intros s c ws bu Hs Hc Hlen.
  - simpl. rewrite Z.add_0_r. auto.
  - simpl length in *. simpl increments. unfold IncrementRequestCount.
    rewrite Hs. simpl.
    rewrite int_wrap_succ by (unfold min_int, int_bits; simpl; lia).
    destruct (IH (<[k := mkClientData (c + 1) ws bu]> s) (c + 1) ws bu)
      as [IH1 IH2]; [apply lookup_insert_eq | lia | lia |].
    destruct (increments _ k rest) as [s2 ns]; simpl in *.
    split.
    + f_equal. rewrite IH1, <- (seq_shift _ 1), map_map.
      apply map_ext. intros i. lia.
    + rewrite IH2. do 2 f_equal. lia.
Qed.

(** X2.  [IncrementRequestCount] called [n] times (at most the largest
    [int]) for a client that has no record returns the counts 1, 2, ..., [n]
    in this order, none lost and none twice; the record it leaves holds the
    count [n], the clock reading of the first call as [WindowStart], and no
    block. *)
Theorem increments_of_fresh_client
  (s : MemoryStorage) (k : string) (clock : Time) (rest : list Time) :
  s !! k = None ->
  Z.of_nat (length (clock :: rest)) <= max_int ->
  snd (increments s k (clock :: rest))
    = map Z.of_nat (seq 1 (length (clock :: rest))) /\
  fst (increments s k (clock :: rest)) !! k
    = Some (mkClientData (Z.of_nat (length (clock :: rest))) clock Time_zero).
Proof.
  intros Hs Hlen. simpl length in *. simpl increments.
  unfold IncrementRequestCount. rewrite Hs.
  destruct (increments_counts k rest
              (<[k := mkClientData 1 clock Time_zero]> s) 1 clock Time_zero)
    as [H1 H2]; [apply lookup_insert_eq | lia | lia |].
  destruct (increments _ k rest) as [s2 ns]; simpl in *.
  split.
  - f_equal. rewrite H1, <- (seq_shift _ 1), map_map.
    apply map_ext. intros i. lia.
  - rewrite H2. do 2 f_equal. lia.
Qed.

Lemma increments_of_fresh_client_witness :
  snd (increments NewMemoryStorage client [t0; t0 + 1; t0 + 2])
    = map Z.of_nat (seq 1 (length [t0; t0 + 1; t0 + 2])) /\
  fst (increments NewMemoryStorage client [t0; t0 + 1; t0 + 2]) !! client
    = Some (mkClientData (Z.of_nat (length [t0; t0 + 1; t0 + 2])) t0
                         Time_zero).
Proof.
  apply (increments_of_fresh_client NewMemoryStorage client t0
           [t0 + 1; t0 + 2]).
  - reflexivity.
  - vm_compute. discriminate.
Defined.

(* ------------------------------------------------------------------ *)
(** ** Store operations followed by a call *)

(** X3.  [BlockClient] on a client that has a record changes the block of
    that record and nothing else: the count and the window start stay, the
    other clients' records stay.  With a block until an instant that is not
    the zero instant, every call of the client before that instant is then
    denied, reports the count the record held and the instant as
    [RetryAfter], and does not change the store. *)
Theorem BlockClient_blocks_known_client
  (rl : RateLimiter) (s : MemoryStorage) (k : string) (d : ClientData)
  (blockedUntil now later : Time) :
  s !! k = Some d ->
  blockedUntil <> Time_zero ->
  now < blockedUntil ->
  BlockClient s k blockedUntil !! k
    = Some (mkClientData (RequestCount d) (WindowStart d) blockedUntil) /\
  (forall k' : string,
     k <> k' -> BlockClient s k blockedUntil !! k' = s !! k') /\
  Allow rl (BlockClient s k blockedUntil) k now later =
    (BlockClient s k blockedUntil,
     mkResult false (RequestCount d) (maxRequests rl) blockedUntil
       (let sec := whole_seconds (time_Until later blockedUntil) in
        if sec <? 1 then 1 else sec)
       (errorMessage rl)).
Proof.
  intros Hs Hnz Hlt.
  assert (Hb : BlockClient s k blockedUntil !! k
               = Some (mkClientData (RequestCount d) (WindowStart d)
                                    blockedUntil)).
  { unfold BlockClient. rewrite Hs. apply lookup_insert_eq. }
  split; [exact Hb|]. split.
  - intros k' Hk. unfold BlockClient. rewrite Hs.
    apply lookup_insert_ne. exact Hk.
  - rewrite (Allow_blocked rl _ k now later _ Hb) by assumption.
    reflexivity.
Qed.

Lemma BlockClient_blocks_known_client_witness :
  BlockClient store_one client (t0 + Minute) !! client
    = Some (mkClientData 1 t0 (t0 + Minute)) /\
  (forall k' : string,
     client <> k' ->
     BlockClient store_one client (t0 + Minute) !! k' = store_one !! k') /\
  Allow New (BlockClient store_one client (t0 + Minute)) client t0 t0 =
    (BlockClient store_one client (t0 + Minute),
     mkResult false 1 (maxRequests New) (t0 + Minute)
       (let sec := whole_seconds (time_Until t0 (t0 + Minute)) in
        if sec <? 1 then 1 else sec)
       (errorMessage New)).
Proof.
  apply (BlockClient_blocks_known_client New store_one client
           (mkClientData 1 t0 Time_zero) (t0 + Minute) t0 t0).
  - reflexivity.
  - vm_compute. discriminate.
  - reflexivity.
Defined.

(** X4.  [BlockClient] on a client that has no record does nothing: the
    store is the same, so the next call of the client is served as if
    [BlockClient] had not been called. *)
Theorem BlockClient_ignores_unknown_client
  (rl : RateLimiter) (s : MemoryStorage) (k : string)
  (blockedUntil now later : Time) :
  s !! k = None ->
  BlockClient s k blockedUntil = s /\
  Allow rl (BlockClient s k blockedUntil) k now later
    = Allow rl s k now later.
Proof.
  intros Hs. assert (H : BlockClient s k blockedUntil = s)
    by (unfold BlockClient; rewrite Hs; reflexivity).
  rewrite H. auto.
Qed.

Lemma BlockClient_ignores_unknown_client_witness :
  BlockClient store_one "other" (t0 + Minute) = store_one /\
  Allow New (BlockClient store_one "other" (t0 + Minute)) "other" t0 t0
    = Allow New store_one "other" t0 t0.
Proof.
  apply (BlockClient_ignores_unknown_client New store_one "other"
           (t0 + Minute) t0 t0).
  reflexivity.
Defined.

(** X5.  [DeleteClient] removes the record of one client and leaves the
    others; [Clear] removes all.  After either, the next call of the client
    is served as a first call, whatever the record held before (a count
    above the limit, a block): the record becomes count 1 with
    [WindowStart = now] and no block, and the call is accepted when
    [maxRequests] is at least 1. *)
Theorem DeleteClient_and_Clear_forget
  (rl : RateLimiter) (s : MemoryStorage) (k : string) (now later : Time) :
  let first_call :=
    if maxRequests rl <? 1
    then mkResult false 1 (maxRequests rl) Time_zero
                  (whole_seconds (blockDuration rl)) (errorMessage rl)
    else allowed_result rl 1 in
  GetClientData (DeleteClient s k) k = None /\
  (forall k' : string,
     k <> k' -> GetClientData (DeleteClient s k) k' = GetClientData s k') /\
  Allow rl (DeleteClient s k) k now later
    = (<[k := mkClientData 1 now Time_zero]> s, first_call) /\
  (forall k' : string, GetClientData (Clear s) k' = None) /\
  Allow rl (Clear s) k now later
    = ({[ k := mkClientData 1 now Time_zero ]}, first_call).
Proof.
  intros first_call. unfold GetClientData, DeleteClient, Clear.
  split; [apply lookup_delete_eq|].
  split; [intros k' Hk; apply lookup_delete_ne; exact Hk|].
  split.
  - rewrite Allow_restart by (left; apply lookup_delete_eq).
    rewrite insert_delete_eq. reflexivity.
  - split; [intros k'; apply lookup_empty|].
    rewrite Allow_restart by (left; apply lookup_empty). reflexivity.
Qed.

(** X6.  [ResetWindow] replaces whatever the store holds for the client by
    a record with count 1, the given window start and no block.  A call of
    the client inside that window is therefore counted as the second
    request: accepted with [RequestsMade = 2] when [maxRequests] is at least
    2, and otherwise denied with the block set from [now]. *)
Theorem ResetWindow_then_call_counts_two
  (rl : RateLimiter) (s : MemoryStorage) (k : string)
  (windowStart now later : Time) :
  Time_Sub now windowStart < windowDuration rl ->
  GetClientData (ResetWindow s k windowStart) k
    = Some (mkClientData 1 windowStart Time_zero) /\
  Allow rl (ResetWindow s k windowStart) k now later =
    if maxRequests rl <? 2 then
      (<[k := mkClientData 2 windowStart
                           (Time_Add now (blockDuration rl))]> s,
       mkResult false 2 (maxRequests rl) (Time_Add now (blockDuration rl))
                (whole_seconds (blockDuration rl)) (errorMessage rl))
    else
      (<[k := mkClientData 2 windowStart Time_zero]> s, allowed_result rl 2).
Proof.
  intros Hw. unfold GetClientData, ResetWindow.
  split; [apply lookup_insert_eq|].
  rewrite (Allow_count rl _ k now later
             (mkClientData 1 windowStart Time_zero))
    by (first [apply lookup_insert_eq | left; reflexivity | exact Hw]).
  simpl. change (int_wrap (1 + 1)) with 2.
  rewrite !insert_insert_eq. reflexivity.
Qed.

Lemma ResetWindow_then_call_counts_two_witness :
  GetClientData (ResetWindow (store_blocked Minute) client (t0 + Second)) client
    = Some (mkClientData 1 (t0 + Second) Time_zero) /\
  Allow New (ResetWindow (store_blocked Minute) client (t0 + Second)) client
        (t0 + 2 * Second) (t0 + 2 * Second) =
    if maxRequests New <? 2 then
      (<[client := mkClientData 2 (t0 + Second)
                     (Time_Add (t0 + 2 * Second) (blockDuration New))]>
         (store_blocked Minute),
       mkResult false 2 (maxRequests New)
                (Time_Add (t0 + 2 * Second) (blockDuration New))
                (whole_seconds (blockDuration New)) (errorMessage New))
    else
      (<[client := mkClientData 2 (t0 + Second) Time_zero]>
         (store_blocked Minute),
       allowed_result New 2).
Proof.
  apply (ResetWindow_then_call_counts_two New (store_blocked Minute) client
           (t0 + Second) (t0 + 2 * Second) (t0 + 2 * Second)).
  vm_compute. reflexivity.
Defined.

(* ------------------------------------------------------------------ *)
(** ** One client at a time *)

Lemma CheckAndIncrement_stored (s : MemoryStorage) (k : string) (now : Time)
  (wd : Duration) (mx : Z) (bd : Duration) :
  fst (CheckAndIncrement s k now wd mx bd) !! k
    = Some (fst (snd (CheckAndIncrement s k now wd mx bd))).
Proof.
  unfold CheckAndIncrement.
  destruct (s !! k) as [[c ws bu]|] eqn:E; simpl;
    repeat match goal with
    | |- context [if ?b then _ else _] => destruct b; simpl
    end; first [exact E | apply lookup_insert_eq].
Qed.

Lemma CheckAndIncrement_other (s : MemoryStorage) (k k' : string) (now : Time)
  (wd : Duration) (mx : Z) (bd : Duration) :
  k <> k' -> fst (CheckAndIncrement s k now wd mx bd) !! k' = s !! k'.
Proof.
  intros Hk. unfold CheckAndIncrement.
  destruct (s !! k) as [[c ws bu]|]; simpl;
    repeat match goal with
    | |- context [if ?b then _ else _] => destruct b; simpl
    end; first [reflexivity | apply lookup_insert_ne; exact Hk].
Qed.

Lemma CheckAndIncrement_local (s1 s2 : MemoryStorage) (k : string)
  (now : Time) (wd : Duration) (mx : Z) (bd : Duration) :
  s1 !! k = s2 !! k ->
  snd (CheckAndIncrement s1 k now wd mx bd)
    = snd (CheckAndIncrement s2 k now wd mx bd).
Proof.
  intros H. unfold CheckAndIncrement. rewrite <- H.
  destruct (s1 !! k) as [[c ws bu]|]; simpl;
    repeat match goal with
    | |- context [if ?b then _ else _] => destruct b; simpl
    end; reflexivity.
Qed.

Lemma Allow_fst (rl : RateLimiter) (s : MemoryStorage) (k : string)
  (now later : Time) :
  fst (Allow rl s k now later)
    = fst (CheckAndIncrement s k now (windowDuration rl) (maxRequests rl)
                             (blockDuration rl)).
Proof.
  unfold Allow. destruct (CheckAndIncrement _ _ _ _ _ _) as [s' [d [|]]]; simpl;
    [destruct (maxRequests rl <? RequestCount d)|]; reflexivity.
Qed.

Lemma Allow_other (rl : RateLimiter) (s : MemoryStorage) (k k' : string)
  (now later : Time) :
  k <> k' -> fst (Allow rl s k now later) !! k' = s !! k'.
Proof. intros Hk. rewrite Allow_fst. apply CheckAndIncrement_other, Hk. Qed.

Lemma Allow_local (rl : RateLimiter) (s1 s2 : MemoryStorage) (k : string)
  (now later : Time) :
  s1 !! k = s2 !! k ->
  snd (Allow rl s1 k now later) = snd (Allow rl s2 k now later) /\
  fst (Allow rl s1 k now later) !! k = fst (Allow rl s2 k now later) !! k.
Proof.
  intros H. split.
  - pose proof (CheckAndIncrement_local s1 s2 k now (windowDuration rl)
                  (maxRequests rl) (blockDuration rl) H) as HL.
    unfold Allow.
    destruct (CheckAndIncrement s1 _ _ _ _ _) as [s1' p1].
    destruct (CheckAndIncrement s2 _ _ _ _ _) as [s2' p2].
    simpl in HL. subst p2. destruct p1 as [d [|]]; simpl;
      [destruct (maxRequests rl <? RequestCount d)|]; reflexivity.
  - rewrite !Allow_fst, !CheckAndIncrement_stored.
    rewrite (CheckAndIncrement_local s1 s2) by exact H. reflexivity.
Qed.

Lemma CheckAndIncrement_flag (s : MemoryStorage) (k : string) (now : Time)
  (wd : Duration) (mx : Z) (bd : Duration) :
  snd (snd (CheckAndIncrement s k now wd mx bd)) = false <->
  exists d : ClientData, s !! k = Some d /\ blocked_at now d.
Proof.
  split.
  - intros Hf.
    destruct (CheckAndIncrement s k now wd mx bd) as [s' [d f]] eqn:E.
    simpl in Hf. subst f.
    apply CheckAndIncrement_false in E as (_ & Hd & Hnz & Hlt).
    exists d. unfold blocked_at. auto.
  - intros (d & Hd & Hnz & Hlt).
    rewrite (CheckAndIncrement_blocked s k now wd mx bd d) by assumption.
    reflexivity.
Qed.

(** X7.  After [CheckAndIncrement] the store holds, for the client, exactly
    the record the operation returned, so a client that was served always
    has a record; the records of all other clients are as before.  The flag
    returned is [false] exactly when the client's record held a block that
    lasts beyond [now], and then the whole store is unchanged. *)
Theorem CheckAndIncrement_returns_stored_record
  (s : MemoryStorage) (k : string) (now : Time)
  (wd : Duration) (mx : Z) (bd : Duration) :
  let out := CheckAndIncrement s k now wd mx bd in
  fst out !! k = Some (fst (snd out)) /\
  (forall k' : string, k <> k' -> fst out !! k' = s !! k') /\
  (snd (snd out) = false <->
   exists d : ClientData, s !! k = Some d /\ blocked_at now d) /\
  (snd (snd out) = false -> fst out = s).
Proof.
  intros out. subst out.
  split; [apply CheckAndIncrement_stored|].
  split; [intros k' Hk; apply CheckAndIncrement_other, Hk|].
  split; [apply CheckAndIncrement_flag|].
  intros Hf.
  destruct (CheckAndIncrement s k now wd mx bd) as [s' [d f]] eqn:E.
  simpl in Hf. subst f.
  apply CheckAndIncrement_false in E as (Hs & _). exact Hs.
Qed.

(** X8.  What [Allow] returns agrees with what it leaves in the store: the
    result reports the count of the client's stored record and the
    configured limit.  An accepted call never reports a count above the
    limit and carries no retry data; a denial carries the configured
    message and the stored [BlockedUntil] as [RetryAfter].  A call is denied
    exactly when the client was blocked beyond [now] at entry or the stored
    count exceeds the limit. *)
Theorem Allow_result_agrees_with_store
  (rl : RateLimiter) (s : MemoryStorage) (k : string) (now later : Time) :
  exists d' : ClientData,
    fst (Allow rl s k now later) !! k = Some d' /\
    RequestsMade (snd (Allow rl s k now later)) = RequestCount d' /\
    Limit (snd (Allow rl s k now later)) = maxRequests rl /\
    (Allowed (snd (Allow rl s k now later)) = true ->
       RequestCount d' <= maxRequests rl /\
       snd (Allow rl s k now later) = allowed_result rl (RequestCount d')) /\
    (Allowed (snd (Allow rl s k now later)) = false ->
       RetryAfter (snd (Allow rl s k now later)) = BlockedUntil d' /\
       ErrorMessage (snd (Allow rl s k now later)) = errorMessage rl) /\
    (Allowed (snd (Allow rl s k now later)) = false <->
       (exists d : ClientData, s !! k = Some d /\ blocked_at now d) \/
       maxRequests rl < RequestCount d').
Proof.
  pose proof (CheckAndIncrement_stored s k now (windowDuration rl)
                (maxRequests rl) (blockDuration rl)) as Hst.
  pose proof (CheckAndIncrement_flag s k now (windowDuration rl)
                (maxRequests rl) (blockDuration rl)) as Hflag.
  rewrite Allow_fst. unfold Allow.
  destruct (CheckAndIncrement s k now _ _ _) as [s' [d' f]]; simpl in *.
  exists d'. split; [exact Hst|].
  destruct f; simpl.
  - destruct (Z.ltb_spec (maxRequests rl) (RequestCount d')); simpl.
    + repeat split; try discriminate; auto.
    + repeat split; try discriminate; try lia; auto.
      intros [Hb | Hc]; [|lia]. apply Hflag in Hb. discriminate.
  - repeat split; try discriminate; auto.
    intros _. left. apply Hflag. reflexivity.
Qed.

(** X9.  A call of [Allow] concerns one client only: it leaves the record
    of every other client as it was, and its result and the record it
    stores depend on nothing in the store but the record of its client. *)
Theorem Allow_concerns_one_client
  (rl : RateLimiter) (s s2 : MemoryStorage) (k : string) (now later : Time) :
  (forall k' : string, k <> k' -> fst (Allow rl s k now later) !! k' = s !! k')
  /\
  (s !! k = s2 !! k ->
   snd (Allow rl s k now later) = snd (Allow rl s2 k now later) /\
   fst (Allow rl s k now later) !! k = fst (Allow rl s2 k now later) !! k).
Proof.
  split.
  - intros k' Hk. apply Allow_other, Hk.
  - apply Allow_local.
Qed.

Lemma results_for_cons (k : string) (c : Call) (calls : list Call)
  (r : Result) (rs : list Result) :
  results_for k (c :: calls) (r :: rs) =
    if decide (call_client c = k) then r :: results_for k calls rs
    else results_for k calls rs.
Proof.
  unfold results_for. simpl zip. rewrite filter_cons. simpl.
  destruct (decide (call_client c = k)); reflexivity.
Qed.

Lemma calls_of_cons (k : string) (c : Call) (calls : list Call) :
  calls_of k (c :: calls) =
    if decide (call_client c = k) then c :: calls_of k calls
    else calls_of k calls.
Proof. unfold calls_of. rewrite filter_cons. reflexivity. Qed.

Lemma serve_calls_of (rl : RateLimiter) (k : string) (calls : list Call) :
  forall s s2 : MemoryStorage,
    s !! k = s2 !! k ->
    fst (serve rl s calls) !! k = fst (serve rl s2 (calls_of k calls)) !! k /\
    results_for k calls (snd (serve rl s calls))
      = snd (serve rl s2 (calls_of k calls)).
Proof.
  induction calls as [|c rest IH]; intros s s2 H.
  - simpl. auto.
  - rewrite serve_cons, calls_of_cons. cbn [fst snd].
    rewrite results_for_cons.
    destruct (decide (call_client c = k)) as [Hc|Hc].
    + rewrite serve_cons. cbn [fst snd]. rewrite Hc.
      destruct (Allow_local rl s s2 k (call_now c) (call_later c) H)
        as [Hr Hs].
      destruct (IH _ _ Hs) as [IH1 IH2].
      rewrite IH1, IH2, Hr. auto.
    + apply IH. rewrite Allow_other by exact Hc. exact H.
Qed.

(** X10.  Clients do not influence one another.  In a run of calls of any
    clients, what client [k] gets and what the store ends up holding for
    [k] are what the calls of [k] alone would have given: the results that
    answer the calls of [k] are the results of the run reduced to those
    calls, and the final record of [k] is the same. *)
Theorem clients_do_not_interfere
  (rl : RateLimiter) (s : MemoryStorage) (k : string) (calls : list Call) :
  results_for k calls (snd (serve rl s calls))
    = snd (serve rl s (calls_of k calls)) /\
  fst (serve rl s calls) !! k = fst (serve rl s (calls_of k calls)) !! k.
Proof.
  destruct (serve_calls_of rl k calls s s eq_refl) as [H1 H2]. auto.
Qed.

(* ------------------------------------------------------------------ *)
(** ** The records a limiter builds *)

Lemma record_ok_mono (rl : RateLimiter) (n m : Z) (d : ClientData) :
  n <= m -> record_ok rl n d -> record_ok rl m d.
Proof. unfold record_ok. intros Hnm [Hc Hb]. split; [lia | exact Hb]. Qed.

Lemma store_ok_insert (rl : RateLimiter) (n : Z) (s : MemoryStorage)
  (k : string) (d : ClientData) :
  store_ok rl n s -> record_ok rl (n + 1) d ->
  store_ok rl (n + 1) (<[k := d]> s).
Proof.
  intros Hs Hd k' d'. destruct (decide (k = k')) as [<-|Hne].
  - rewrite lookup_insert_eq. intros [= <-]. exact Hd.
  - rewrite lookup_insert_ne by exact Hne. intros H.
    apply (record_ok_mono rl n); [lia | exact (Hs _ _ H)].
Qed.

Lemma Allow_keeps_store_ok (rl : RateLimiter) (s : MemoryStorage)
  (k : string) (now later : Time) (n : Z) :
  0 <= n < max_int -> store_ok rl n s ->
  store_ok rl (n + 1) (fst (Allow rl s k now later)).
Proof.
  intros Hn Hs. rewrite Allow_fst. unfold CheckAndIncrement.
  assert (Hfresh : record_ok rl (n + 1) (mkClientData 1 now Time_zero))
    by (split; simpl; [lia | intros H; elim H; reflexivity]).
  destruct (s !! k) as [[c ws bu]|] eqn:E; simpl;
    [|apply store_ok_insert; assumption].
  destruct (Hs _ _ E) as [Hc Hb]; simpl in Hc, Hb.
  destruct (negb (Time_IsZero bu) && Time_Before now bu); simpl.
  { intros k' d' H. apply (record_ok_mono rl n); [lia | exact (Hs _ _ H)]. }
  destruct (negb (Time_IsZero bu) && Time_After now bu); simpl;
    [apply store_ok_insert; assumption|].
  destruct (windowDuration rl <=? Time_Sub now ws); simpl;
    [apply store_ok_insert; assumption|].
  apply store_ok_insert; [exact Hs|].
  rewrite int_wrap_succ by (unfold min_int, int_bits; simpl; lia).
  split; simpl; [lia|].
  destruct (Z.ltb_spec (maxRequests rl) (c + 1)); [intros _; assumption|].
  intros Hnz. apply Hb in Hnz. lia.
Qed.

Lemma serve_keeps_store_ok (rl : RateLimiter) (calls : list Call) :
  forall (n : Z) (s : MemoryStorage),
    0 <= n -> n + Z.of_nat (length calls) <= max_int -> store_ok rl n s ->
    store_ok rl (n + Z.of_nat (length calls)) (fst (serve rl s calls)).
Proof.
  induction calls as [|c rest IH]; intros n s Hn Hlen Hs.
  - simpl. rewrite Z.add_0_r. exact Hs.
  - simpl length in *. rewrite serve_cons. cbn [fst].
    replace (n + Z.of_nat (S (length rest)))
      with (n + 1 + Z.of_nat (length rest)) by lia.
    apply IH; [lia | lia |].
    apply Allow_keeps_store_ok; [lia | exact Hs].
Qed.

(** X11.  In the store a limiter builds from the empty store, by a run of
    calls of any clients at any clock readings (not longer than the largest
    [int]), every record holds a count of at least 1 and at most the number
    of calls, and a block is recorded only for a client whose count exceeds
    [maxRequests]. *)
Theorem served_store_is_well_formed
  (rl : RateLimiter) (calls : list Call) (k : string) (d : ClientData) :
  Z.of_nat (length calls) <= max_int ->
  fst (serve rl NewMemoryStorage calls) !! k = Some d ->
  1 <= RequestCount d <= Z.of_nat (length calls) /\
  (BlockedUntil d <> Time_zero -> maxRequests rl < RequestCount d).
Proof.
  intros Hlen Hd.
  apply (serve_keeps_store_ok rl calls 0 NewMemoryStorage) in Hd;
    [exact Hd | lia | lia |].
  intros k' d' H. unfold NewMemoryStorage in H.
  rewrite lookup_empty in H. discriminate.
Qed.

Lemma served_store_is_well_formed_witness :
  1 <= RequestCount (mkClientData 2 t0 (t0 + Minute))
    <= Z.of_nat (length [mkCall client t0 t0 t0; mkCall client t0 t0 t0;
                         mkCall client t0 t0 t0]) /\
  (BlockedUntil (mkClientData 2 t0 (t0 + Minute)) <> Time_zero ->
   maxRequests (limiter 1 Minute Minute)
     < RequestCount (mkClientData 2 t0 (t0 + Minute))).
Proof.
  apply (served_store_is_well_formed (limiter 1 Minute Minute)
           [mkCall client t0 t0 t0; mkCall client t0 t0 t0;
            mkCall client t0 t0 t0] client).
  - vm_compute. discriminate.
  - vm_compute. reflexivity.
Defined.

(* ------------------------------------------------------------------ *)
(** ** Runs within the limit, and the end of a block *)

Lemma serve_counting_results (rl : RateLimiter) (k : string) (ws : Time)
  (l : list Call) :
  forall (c : Z) (s : MemoryStorage),
    s !! k = Some (mkClientData c ws Time_zero) ->
    0 <= c -> c + Z.of_nat (length l) <= maxRequests rl ->
    maxRequests rl <= max_int ->
    on_client k l ->
    Forall (fun x => Time_Sub (call_now x) ws < windowDuration rl) l ->
    snd (serve rl s l)
      = map (fun i => allowed_result rl (c + Z.of_nat i)) (seq 1 (length l)) /\
    fst (serve rl s l) !! k
      = Some (mkClientData (c + Z.of_nat (length l)) ws Time_zero).
Proof.
  induction l as [|x l IH]; intros c s Hs Hc Hlen Hmax Hk Hw.
  - simpl. rewrite Z.add_0_r. auto.
  - apply Forall_cons in Hk as [Hx Hk]. apply Forall_cons in Hw as [Hwx Hw].
    simpl length in *. rewrite serve_cons, Hx.
    pose proof (Allow_count rl s k (call_now x) (call_later x)
                  (mkClientData c ws Time_zero) Hs (or_introl eq_refl) Hwx)
      as HA.
    simpl in HA. rewrite int_wrap_succ in HA
      by (unfold min_int, int_bits; simpl; lia).
    destruct (Z.ltb_spec (maxRequests rl) (c + 1)); [lia|].
    rewrite HA. cbn [fst snd].
    destruct (IH (c + 1) (<[k := mkClientData (c + 1) ws Time_zero]> s))
      as [IH1 IH2]; try assumption; try lia.
    { apply lookup_insert_eq. }
    split.
    + simpl. f_equal. rewrite IH1, <- (seq_shift _ 1), map_map.
      apply map_ext. intros i. f_equal. lia.
    + rewrite IH2. do 2 f_equal. lia.
Qed.

(** X12.  A client without a record that makes [n] calls, [n] at most
    [maxRequests], all within the window its first call opens, is accepted
    every time, and the calls report [RequestsMade] 1, 2, ..., [n] in this
    order; the store ends with the count [n], the first call's clock reading
    as [WindowStart], and no block. *)
Theorem calls_within_limit_are_counted_and_allowed
  (rl : RateLimiter) (s : MemoryStorage) (k : string)
  (c0 : Call) (rest : list Call) :
  s !! k = None ->
  Z.of_nat (length (c0 :: rest)) <= maxRequests rl <= max_int ->
  on_client k (c0 :: rest) ->
  within_one_window rl (c0 :: rest) ->
  snd (serve rl s (c0 :: rest))
    = map (fun i => allowed_result rl (Z.of_nat i))
          (seq 1 (length (c0 :: rest))) /\
  fst (serve rl s (c0 :: rest)) !! k
    = Some (mkClientData (Z.of_nat (length (c0 :: rest))) (call_now c0)
                         Time_zero).
Proof.
  intros Hs [Hlen Hmax] Hk Hw.
  apply Forall_cons in Hk as [Hk0 Hk]. simpl in Hw. simpl length in *.
  rewrite serve_cons, Hk0.
  rewrite Allow_restart by (left; exact Hs).
  destruct (Z.ltb_spec (maxRequests rl) 1); [lia|]. cbn [fst snd].
  destruct (serve_counting_results rl k (call_now c0) rest 1
              (<[k := mkClientData 1 (call_now c0) Time_zero]> s))
    as [H1 H2]; try assumption; try lia.
  { apply lookup_insert_eq. }
  split.
  - simpl. f_equal. rewrite H1, <- (seq_shift _ 1), map_map.
    apply map_ext. intros i. f_equal. lia.
  - rewrite H2. do 2 f_equal. lia.
Qed.

Lemma calls_within_limit_are_counted_and_allowed_witness :
  let rl := limiter 3 Minute Minute in
  let c0 := mkCall client t0 t0 t0 in
  let rest := [mkCall client (t0 + Second) (t0 + Second) (t0 + Second);
               mkCall client (t0 + 59 * Second) (t0 + 59 * Second)
                      (t0 + 59 * Second)] in
  snd (serve rl NewMemoryStorage (c0 :: rest))
    = map (fun i => allowed_result rl (Z.of_nat i))
          (seq 1 (length (c0 :: rest))) /\
  fst (serve rl NewMemoryStorage (c0 :: rest)) !! client
    = Some (mkClientData (Z.of_nat (length (c0 :: rest))) (call_now c0)
                         Time_zero).
Proof.
  apply (calls_within_limit_are_counted_and_allowed (limiter 3 Minute Minute)
           NewMemoryStorage client).
  - reflexivity.
  - vm_compute. split; discriminate.
  - repeat constructor.
  - simpl. repeat constructor.
Defined.

(** X13.  The end of a block.  When a counted call takes a client over the
    limit at [now], the call is denied with [RetryAfter = now +
    blockDuration]; with [maxRequests] at least 1, the client's call at any
    instant after [now + blockDuration] is accepted again and leaves the
    record with count 1, that instant as [WindowStart], and no block.  For
    [blockDuration = 0] this is any instant after [now]. *)
Theorem client_is_readmitted_after_block
  (rl : RateLimiter) (s : MemoryStorage) (k : string) (d : ClientData)
  (now later now' later' : Time) :
  1 <= maxRequests rl ->
  s !! k = Some d ->
  BlockedUntil d = Time_zero ->
  Time_Sub now (WindowStart d) < windowDuration rl ->
  maxRequests rl < int_wrap (RequestCount d + 1) ->
  Time_Add now (blockDuration rl) <> Time_zero ->
  Time_Add now (blockDuration rl) < now' ->
  Allowed (snd (Allow rl s k now later)) = false /\
  RetryAfter (snd (Allow rl s k now later)) = Time_Add now (blockDuration rl) /\
  Allow rl (fst (Allow rl s k now later)) k now' later'
    = (<[k := mkClientData 1 now' Time_zero]> s, allowed_result rl 1).
Proof.
  intros Hmx Hs Hz Hw Hover Hnz Hlater.
  pose proof (Allow_count rl s k now later d Hs (or_introl Hz) Hw) as HA.
  simpl in HA.
  destruct (Z.ltb_spec (maxRequests rl) (int_wrap (RequestCount d + 1)));
    [|lia].
  rewrite HA. cbn [fst snd]. simpl.
  split; [reflexivity|]. split; [reflexivity|].
  rewrite Allow_restart.
  - rewrite insert_insert_eq.
    destruct (Z.ltb_spec (maxRequests rl) 1); [lia | reflexivity].
  - right. eexists. split; [apply lookup_insert_eq|].
    left. simpl. split; assumption.
Qed.

Lemma client_is_readmitted_after_block_witness :
  let rl := limiter 1 Minute 0 in
  Allowed (snd (Allow rl store_one client t0 t0)) = false /\
  RetryAfter (snd (Allow rl store_one client t0 t0))
    = Time_Add t0 (blockDuration rl) /\
  Allow rl (fst (Allow rl store_one client t0 t0)) client
        (t0 + Nanosecond) (t0 + Nanosecond)
    = (<[client := mkClientData 1 (t0 + Nanosecond) Time_zero]> store_one,
       allowed_result rl 1).
Proof.
  apply (client_is_readmitted_after_block (limiter 1 Minute 0) store_one
           client (mkClientData 1 t0 Time_zero) t0 t0
           (t0 + Nanosecond) (t0 + Nanosecond)).
  - vm_compute. discriminate.
  - reflexivity.
  - reflexivity.
  - vm_compute. reflexivity.
  - vm_compute. reflexivity.
  - vm_compute. discriminate.
  - vm_compute. reflexivity.
Defined.

(** X14.  With [maxRequests] at least 1, the earlier variant of [Allow],
    which reads the record with [GetClientData] and updates the store
    through [ResetWindow], [SetClientData], [IncrementRequestCount] and
    [BlockClient], gives on every run of calls, served one after the other,
    the same results and the same final store as the current variant. *)
Theorem earlier_variant_agrees_when_limit_positive
  (rl : RateLimiter) (s : MemoryStorage) (calls : list Call) :
  1 <= maxRequests rl ->
  serve_earlier rl s calls = serve rl s calls.
Proof. intros Hmx. apply serve_earlier_agrees. exact Hmx. Qed.

Lemma earlier_variant_agrees_when_limit_positive_witness :
  serve_earlier (limiter 1 Minute Second) NewMemoryStorage
    [mkCall client t0 t0 t0; mkCall client t0 t0 t0;
     mkCall "other" t0 t0 t0;
     mkCall client (t0 + Minute) (t0 + Minute) (t0 + Minute)]
  = serve (limiter 1 Minute Second) NewMemoryStorage
      [mkCall client t0 t0 t0; mkCall client t0 t0 t0;
       mkCall "other" t0 t0 t0;
       mkCall client (t0 + Minute) (t0 + Minute) (t0 + Minute)].
Proof.
  apply (earlier_variant_agrees_when_limit_positive
           (limiter 1 Minute Second) NewMemoryStorage).
  vm_compute. discriminate.
Defined.

(* ------------------------------------------------------------------ *)
(** ** Runs from the empty store *)

Lemma Allow_keeps_over_limit_blocked (rl : RateLimiter) (s : MemoryStorage)
  (k : string) (now later : Time) :
  1 <= maxRequests rl -> 0 <= blockDuration rl -> Time_zero < now ->
  (forall (k' : string) (d : ClientData),
     s !! k' = Some d ->
     maxRequests rl < RequestCount d -> BlockedUntil d <> Time_zero) ->
  forall (k' : string) (d : ClientData),
    fst (Allow rl s k now later) !! k' = Some d ->
    maxRequests rl < RequestCount d -> BlockedUntil d <> Time_zero.
Proof.
  intros Hmx Hbd Hnow Hs k' d. rewrite Allow_fst.
  destruct (decide (k = k')) as [<-|Hne];
    [|rewrite CheckAndIncrement_other by exact Hne; apply Hs].
  unfold CheckAndIncrement.
  destruct (s !! k) as [[c ws bu]|] eqn:E; simpl.
  - destruct (negb (Time_IsZero bu) && Time_Before now bu); simpl;
      [apply Hs|].
    destruct (negb (Time_IsZero bu) && Time_After now bu); simpl;
      [rewrite lookup_insert_eq; intros [= <-]; simpl; lia|].
    destruct (windowDuration rl <=? Time_Sub now ws); simpl;
      [rewrite lookup_insert_eq; intros [= <-]; simpl; lia|].
    rewrite lookup_insert_eq. intros [= <-]. simpl.
    destruct (Z.ltb_spec (maxRequests rl) (int_wrap (c + 1))); [|lia].
    intros _. unfold Time_Add, Time_zero in *. lia.
  - rewrite lookup_insert_eq. intros [= <-]. simpl. lia.
Qed.

Lemma serve_keeps_over_limit_blocked (rl : RateLimiter) (calls : list Call) :
  1 <= maxRequests rl -> 0 <= blockDuration rl -> clock_after_zero calls ->
  forall s : MemoryStorage,
    (forall (k' : string) (d : ClientData),
       s !! k' = Some d ->
       maxRequests rl < RequestCount d -> BlockedUntil d <> Time_zero) ->
    forall (k' : string) (d : ClientData),
      fst (serve rl s calls) !! k' = Some d ->
      maxRequests rl < RequestCount d -> BlockedUntil d <> Time_zero.
Proof.
  intros Hmx Hbd Hclock.
  induction Hclock as [|c rest Hc _ IH]; intros s Hs; [exact Hs|].
  rewrite serve_cons. cbn [fst]. apply IH.
  apply Allow_keeps_over_limit_blocked; assumption.
Qed.

(** X15.  In the store a limiter with [maxRequests] at least 1 and a
    [blockDuration] that is not negative builds from the empty store, by
    calls at clock readings after the zero instant, a client whose count
    exceeds the limit always has a block recorded: no client is over the
    limit and free to be counted on. *)
Theorem client_over_limit_is_blocked
  (rl : RateLimiter) (calls : list Call) (k : string) (d : ClientData) :
  1 <= maxRequests rl ->
  0 <= blockDuration rl ->
  clock_after_zero calls ->
  fst (serve rl NewMemoryStorage calls) !! k = Some d ->
  maxRequests rl < RequestCount d ->
  BlockedUntil d <> Time_zero.
Proof.
  intros Hmx Hbd Hclock.
  apply (serve_keeps_over_limit_blocked rl calls Hmx Hbd Hclock).
  intros k' d' H. unfold NewMemoryStorage in H.
  rewrite lookup_empty in H. discriminate.
Qed.

Lemma client_over_limit_is_blocked_witness :
  BlockedUntil (mkClientData 2 t0 (t0 + Minute)) <> Time_zero.
Proof.
  apply (client_over_limit_is_blocked (limiter 1 Minute Minute)
           [mkCall client t0 t0 t0; mkCall client t0 t0 t0] client).
  - vm_compute. discriminate.
  - vm_compute. discriminate.
  - repeat constructor.
  - vm_compute. reflexivity.
  - vm_compute. reflexivity.
Defined.

Lemma Allow_reports_stored_count (rl : RateLimiter) (s : MemoryStorage)
  (k : string) (now later : Time) :
  RequestCount <$> fst (Allow rl s k now later) !! k
    = Some (RequestsMade (snd (Allow rl s k now later))).
Proof.
  pose proof (CheckAndIncrement_stored s k now (windowDuration rl)
                (maxRequests rl) (blockDuration rl)) as Hst.
  rewrite Allow_fst. unfold Allow.
  destruct (CheckAndIncrement s k now _ _ _) as [s' [d' f]]; simpl in *.
  rewrite Hst. destruct f; simpl;
    [destruct (maxRequests rl <? RequestCount d')|]; reflexivity.
Qed.

Lemma serve_results_bounded (rl : RateLimiter) (calls : list Call) :
  forall (n : Z) (s : MemoryStorage),
    0 <= n -> n + Z.of_nat (length calls) <= max_int -> store_ok rl n s ->
    forall (i : nat) (r : Result),
      snd (serve rl s calls) !! i = Some r ->
      1 <= RequestsMade r <= n + Z.of_nat i + 1.
Proof.
  induction calls as [|c rest IH]; intros n s Hn Hlen Hs i r Hr.
  - simpl in Hr. rewrite lookup_nil in Hr. discriminate.
  - simpl length in *. rewrite serve_cons in Hr. cbn [snd] in Hr.
    pose proof (Allow_keeps_store_ok rl s (call_client c) (call_now c)
                  (call_later c) n ltac:(lia) Hs) as Hs1.
    destruct i as [|i]; simpl in Hr.
    + injection Hr as <-.
      pose proof (Allow_reports_stored_count rl s (call_client c)
                    (call_now c) (call_later c)) as Hc.
      destruct (fst (Allow rl s (call_client c) (call_now c) (call_later c))
                  !! call_client c) as [d|] eqn:E; [|discriminate].
      injection Hc as <-. destruct (Hs1 _ _ E) as [Hd _]. lia.
    + pose proof (IH (n + 1) _ ltac:(lia) ltac:(lia) Hs1 i r Hr). lia.
Qed.

(** X16.  In a run from the empty store (not longer than the largest
    [int]), the result of the call of index [i], counting from 0, reports a
    [RequestsMade] of at least 1 and at most [i + 1], the number of calls
    made so far, whoever made them and whether the call was accepted or
    denied. *)
Theorem results_report_plausible_counts
  (rl : RateLimiter) (calls : list Call) (i : nat) (r : Result) :
  Z.of_nat (length calls) <= max_int ->
  snd (serve rl NewMemoryStorage calls) !! i = Some r ->
  1 <= RequestsMade r <= Z.of_nat i + 1.
Proof.
  intros Hlen Hr.
  apply (serve_results_bounded rl calls 0 NewMemoryStorage) in Hr;
    [lia | lia | lia |].
  intros k' d' H. unfold NewMemoryStorage in H.
  rewrite lookup_empty in H. discriminate.
Qed.

Lemma results_report_plausible_counts_witness :
  1 <= RequestsMade (mkResult false 2 1 (t0 + Minute) 60 "Rate limit exceeded")
    <= Z.of_nat 2 + 1.
Proof.
  apply (results_report_plausible_counts (limiter 1 Minute Minute)
           [mkCall client t0 t0 t0; mkCall client t0 t0 t0;
            mkCall client t0 t0 t0] 2).
  - vm_compute. discriminate.
  - vm_compute. reflexivity.
Defined.
